(** * The controller builder of controller-runtime, pkg/builder/build.go

    A shallow embedding of the fluent [Builder] of
    [sigs.k8s.io/controller-runtime/pkg/builder] and of its [Build] /
    [Complete] operation, with the properties its specification states.

    The builder is a Go struct reached through a pointer ([*Builder]): it
    lives in a heap of builders, every method takes the receiver's address
    and dereferences it.  The manager, the controller, the webhook server and
    the package-level functions [getConfig], [newManager], [newController],
    [getGvk] belong to the framework the builder configures: they are the
    fields of an environment, and every call made to them is recorded, with
    what it answered, in a trace.

    Two things are taken for granted about the framework.  It holds no
    pointer to the builder, so a call to it changes the trace and not the
    heap.  And the getters of a manager ([GetConfig], [GetScheme],
    [GetWebhookServer]) read fields of the manager: they are functions of it
    and are not recorded. *)

From Stdlib Require Import String Ascii List ZArith Bool Lia.
From stdpp Require Import gmap.
Import ListNotations.

Local Open Scope string_scope.
Local Open Scope list_scope.

(** ** Go's [strings] and [fmt] functions used by the builder *)

Module strings.

(** One byte of [strings.ToLower]: 'A'..'Z' go to 'a'..'z'. *)
Definition lower_byte (c : ascii) : ascii :=
  let n := nat_of_ascii c in
  if (65 <=? n)%nat && (n <=? 90)%nat then ascii_of_nat (n + 32) else c.

(** [strings.ToLower] on a string of ASCII bytes.  (Go maps every Unicode
    letter; bytes above 127 are left as they are here, so the model is exact
    on ASCII input, which is what Kubernetes kinds are.) *)
Fixpoint ToLower (s : string) : string :=
  match s with
  | EmptyString => EmptyString
  | String c s' => String (lower_byte c) (ToLower s')
  end.

(** The replacement budget of [strings.Replace]: [None] when n < 0 (no
    limit), otherwise the number of replacements still allowed. *)
Definition budget (n : Z) : option nat :=
  if (n <? 0)%Z then None else Some (Z.to_nat n).

Definition spent (limit : option nat) : bool :=
  match limit with Some O => true | _ => false end.

Definition charge (limit : option nat) : option nat :=
  match limit with Some (S k) => Some k | other => other end.

(** The non-overlapping scan of [strings.Replace] for a non-empty [old]:
    [skip] counts the bytes of a matched occurrence still to be dropped. *)
Fixpoint replace_from (skip : nat) (limit : option nat) (old new s : string) : string :=
  match s with
  | EmptyString => EmptyString
  | String c s' =>
      match skip with
      | S k => replace_from k limit old new s'
      | O =>
          if spent limit then s
          else if String.prefix old s
               then new ++ replace_from (String.length old - 1) (charge limit) old new s'
               else String c (replace_from 0 limit old new s')
      end
  end.

(** [strings.Replace] with an empty [old]: [new] is inserted before every
    byte and at the end (Go inserts at rune boundaries: the same thing on
    ASCII input). *)
Fixpoint insert_between (limit : option nat) (new s : string) : string :=
  match s with
  | EmptyString => if spent limit then EmptyString else new
  | String c s' =>
      if spent limit then s
      else new ++ String c (insert_between (charge limit) new s')
  end.

(** [strings.Replace(s, old, new, n)]. *)
Definition Replace (s old new : string) (n : Z) : string :=
  match old with
  | EmptyString => insert_between (budget n) new s
  | String _ _ => replace_from 0 (budget n) old new s
  end.

End strings.

(** [fmt.Sprintf("%s-application", s)]. *)
Definition Sprintf_application (s : string) : string := s ++ "-application".

(** ** The framework the builder configures *)

(** The types of the vendored framework are opaque to the builder, and so
    are the getters of the [manager.Manager] interface and the two Go type
    assertions [apiType.(admission.Defaulter)] and
    [apiType.(admission.Validator)], which only depend on the dynamic type
    of the object. *)
Class Framework : Type := {
  Object : Type;          (* a non-nil runtime.Object *)
  Scheme : Type;          (* *runtime.Scheme *)
  Config : Type;          (* the pointee of a non-nil *rest.Config *)
  Manager : Type;         (* a non-nil manager.Manager *)
  Controller : Type;      (* a non-nil controller.Controller *)
  Reconciler : Type;      (* a non-nil reconcile.Reconciler *)
  Predicate : Type;       (* predicate.Predicate *)
  Webhook : Type;         (* the pointee of a non-nil *admission.Webhook *)
  WebhookServer : Type;   (* *webhook.Server *)
  OtherSource : Type;     (* a source.Source that the builder did not make *)
  OtherHandler : Type;    (* a handler.EventHandler that it did not make *)
  ExternalError : Type;   (* an error made by the framework *)
  GetConfig : Manager -> option Config;
  GetScheme : Manager -> Scheme;
  GetWebhookServer : Manager -> WebhookServer;
  implementsDefaulter : Object -> bool;
  implementsValidator : Object -> bool
}.

(** [schema.GroupVersionKind]. *)
Record GroupVersionKind : Type := mkGVK {
  Group : string;
  Version : string;
  Kind : string
}.

(** A method returns, or panics (a nil pointer or nil interface is
    dereferenced). *)
Inductive Outcome (A : Type) : Type :=
| Done (a : A)
| Panic.
Arguments Done {A} a.
Arguments Panic {A}.

Section Model.

Context {F : Framework}.

(** Go's [error]: the framework's errors, and the ones made by
    [fmt.Errorf] from a format without verbs. *)
Inductive error : Type :=
| Errorf (format : string)
| External (e : ExternalError).

(** [source.Source]: [&source.Kind{Type: t}], or any other source. *)
Inductive Source : Type :=
| SourceKind (Type_ : option Object)
| SourceOther (s : OtherSource).

(** [handler.EventHandler]: the two handlers the builder makes, or any
    other handler. *)
Inductive EventHandler : Type :=
| EnqueueRequestForObject
| EnqueueRequestForOwner (OwnerType : option Object) (IsController : bool)
| HandlerOther (h : OtherHandler).

Record watchRequest : Type := mkWatchRequest {
  src : Source;
  eventhandler : EventHandler
}.

(** The [Builder] struct.  A nil interface or pointer is [None]. *)
Record Builder : Type := mkBuilder {
  apiType : option Object;
  mgr : option Manager;
  predicates : list Predicate;
  managedObjects : list (option Object);
  watchRequests : list watchRequest;      (* the field [watchRequest] *)
  config : option Config;
  ctrl : option Controller
}.

(** [&Builder{}]. *)
Definition zeroBuilder : Builder := mkBuilder None None [] [] [] None None.

Definition set_apiType (x : option Object) (b : Builder) : Builder :=
  mkBuilder x (mgr b) (predicates b) (managedObjects b) (watchRequests b) (config b) (ctrl b).
Definition set_mgr (x : option Manager) (b : Builder) : Builder :=
  mkBuilder (apiType b) x (predicates b) (managedObjects b) (watchRequests b) (config b) (ctrl b).
Definition set_predicates (x : list Predicate) (b : Builder) : Builder :=
  mkBuilder (apiType b) (mgr b) x (managedObjects b) (watchRequests b) (config b) (ctrl b).
Definition set_managedObjects (x : list (option Object)) (b : Builder) : Builder :=
  mkBuilder (apiType b) (mgr b) (predicates b) x (watchRequests b) (config b) (ctrl b).
Definition set_watchRequests (x : list watchRequest) (b : Builder) : Builder :=
  mkBuilder (apiType b) (mgr b) (predicates b) (managedObjects b) x (config b) (ctrl b).
Definition set_config (x : option Config) (b : Builder) : Builder :=
  mkBuilder (apiType b) (mgr b) (predicates b) (managedObjects b) (watchRequests b) x (ctrl b).
Definition set_ctrl (x : option Controller) (b : Builder) : Builder :=
  mkBuilder (apiType b) (mgr b) (predicates b) (managedObjects b) (watchRequests b) (config b) x.

(** A call made to the framework, with what it answered. *)
Inductive Event : Type :=
| EvGetConfig (cfg : option Config) (err : option error)
| EvNewManager (cfg : option Config) (m : option Manager) (err : option error)
| EvGetGvk (obj : option Object) (scheme : Scheme) (gvk : GroupVersionKind)
    (err : option error)
| EvNewController (name : String.string) (m : option Manager) (r : option Reconciler)
    (c : option Controller) (err : option error)
| EvGVKForObject (obj : option Object) (scheme : Scheme) (gvk : GroupVersionKind)
    (err : option error)
| EvDefaultingWebhookFor (defaulter : Object) (mwh : option Webhook)
| EvValidatingWebhookFor (validator : Object) (vwh : option Webhook)
| EvLogInfo (msg : String.string) (gvk : GroupVersionKind) (path : String.string)
| EvRegister (srv : WebhookServer) (path : String.string) (hook : Webhook)
| EvWatch (c : Controller) (s : Source) (h : EventHandler) (prct : list Predicate)
    (err : option error).

(** The framework's functions.  They are package-level variables that tests
    swap for mocks, and stateful services: each answers as a function of the
    calls made so far (its first argument) and of its arguments. *)
Record Env : Type := mkEnv {
  getConfig : list Event -> option Config * option error;
  newManager : list Event -> option Config -> option Manager * option error;
  getGvk : list Event -> option Object -> Scheme -> GroupVersionKind * option error;
  newController : list Event -> String.string -> option Manager -> option Reconciler ->
                  option Controller * option error;
  GVKForObject : list Event -> option Object -> Scheme -> GroupVersionKind * option error;
  DefaultingWebhookFor : list Event -> Object -> option Webhook;
  ValidatingWebhookFor : list Event -> Object -> option Webhook;
  Watch : list Event -> Controller -> Source -> EventHandler -> list Predicate -> option error
}.

(** ** The heap of builders and the monad of the methods *)

Definition loc : Type := positive.

Record State : Type := mkState {
  heap : gmap positive Builder;
  trace : list Event
}.

Definition M (A : Type) : Type := State -> Outcome A * State.

Definition ret {A : Type} (a : A) : M A := fun st => (Done a, st).

Definition bind {A B : Type} (m : M A) (k : A -> M B) : M B :=
  fun st =>
    match m st with
    | (Done a, st') => k a st'
    | (Panic, st') => (Panic, st')
    end.

Definition panic {A : Type} : M A := fun st => (Panic, st).

(** [*blder]. *)
Definition load (blder : loc) : M Builder :=
  fun st =>
    match heap st !! blder with
    | Some b => (Done b, st)
    | None => (Panic, st)
    end.

(** [blder.field = x]. *)
Definition update (blder : loc) (f : Builder -> Builder) : M unit :=
  fun st =>
    match heap st !! blder with
    | Some b => (Done tt, mkState (<[blder := f b]> (heap st)) (trace st))
    | None => (Panic, st)
    end.

(** The receiver of a method call on an interface value: nil panics. *)
Definition deref {A : Type} (x : option A) : M A :=
  match x with
  | Some a => ret a
  | None => panic
  end.

Definition history : M (list Event) := fun st => (Done (trace st), st).

Definition emit (e : Event) : M unit :=
  fun st => (Done tt, mkState (heap st) (trace st ++ [e])).

(** [x != nil]. *)
Definition notNil {A : Type} (x : option A) : bool :=
  match x with
  | Some _ => true
  | None => false
  end.

End Model.

Notation "x <- m ;; k" := (bind m (fun x => k))
  (at level 100, m at next level, right associativity).

Section Methods.

Context {F : Framework}.
Variable env : Env.

(** *** Calls to the framework: the answer is recorded in the trace *)

Definition call_getConfig : M (option Config * option error) :=
  h <- history;;
  let a := getConfig env h in
  _ <- emit (EvGetConfig (fst a) (snd a));;
  ret a.

(** [newManager(cfg, manager.Options{})]. *)
Definition call_newManager (cfg : option Config) : M (option Manager * option error) :=
  h <- history;;
  let a := newManager env h cfg in
  _ <- emit (EvNewManager cfg (fst a) (snd a));;
  ret a.

Definition call_getGvk (obj : option Object) (scheme : Scheme)
  : M (GroupVersionKind * option error) :=
  h <- history;;
  let a := getGvk env h obj scheme in
  _ <- emit (EvGetGvk obj scheme (fst a) (snd a));;
  ret a.

(** [newController(name, m, controller.Options{Reconciler: r})]. *)
Definition call_newController (name : string) (m : option Manager) (r : option Reconciler)
  : M (option Controller * option error) :=
  h <- history;;
  let a := newController env h name m r in
  _ <- emit (EvNewController name m r (fst a) (snd a));;
  ret a.

Definition call_GVKForObject (obj : option Object) (scheme : Scheme)
  : M (GroupVersionKind * option error) :=
  h <- history;;
  let a := GVKForObject env h obj scheme in
  _ <- emit (EvGVKForObject obj scheme (fst a) (snd a));;
  ret a.

Definition call_DefaultingWebhookFor (defaulter : Object) : M (option Webhook) :=
  h <- history;;
  let a := DefaultingWebhookFor env h defaulter in
  _ <- emit (EvDefaultingWebhookFor defaulter a);;
  ret a.

Definition call_ValidatingWebhookFor (validator : Object) : M (option Webhook) :=
  h <- history;;
  let a := ValidatingWebhookFor env h validator in
  _ <- emit (EvValidatingWebhookFor validator a);;
  ret a.

(** [log.Info(msg, "GVK", gvk, "path", path)]. *)
Definition log_Info (msg : string) (gvk : GroupVersionKind) (path : string) : M unit :=
  emit (EvLogInfo msg gvk path).

(** [srv.Register(path, hook)]: it returns nothing. *)
Definition call_Register (srv : WebhookServer) (path : string) (hook : Webhook) : M unit :=
  emit (EvRegister srv path hook).

(** [c.Watch(s, h, prct...)]. *)
Definition call_Watch (c : Controller) (s : Source) (h : EventHandler) (prct : list Predicate)
  : M (option error) :=
  hist <- history;;
  let a := Watch env hist c s h prct in
  _ <- emit (EvWatch c s h prct a);;
  ret a.

(** *** The constructors and the setters *)

(** [SimpleController]: [&Builder{}], a new cell of the heap. *)
Definition SimpleController : M loc :=
  fun st =>
    let blder : loc := fresh (dom (heap st) : gset positive) in
    (Done blder, mkState (<[blder := zeroBuilder]> (heap st)) (trace st)).

Definition For (blder : loc) (apiType : option Object) : M loc :=
  _ <- update blder (set_apiType apiType);;
  ret blder.

Definition ForType (blder : loc) (apiType : option Object) : M loc :=
  For blder apiType.

Definition Owns (blder : loc) (apiType : option Object) : M loc :=
  b <- load blder;;
  _ <- update blder (set_managedObjects (managedObjects b ++ [apiType]));;
  ret blder.

Definition Watches (blder : loc) (src : Source) (eventhandler : EventHandler) : M loc :=
  b <- load blder;;
  _ <- update blder (set_watchRequests (watchRequests b ++ [mkWatchRequest src eventhandler]));;
  ret blder.

Definition WithConfig (blder : loc) (config : option Config) : M loc :=
  _ <- update blder (set_config config);;
  ret blder.

Definition WithManager (blder : loc) (m : option Manager) : M loc :=
  _ <- update blder (set_mgr m);;
  ret blder.

Definition WithEventFilter (blder : loc) (p : Predicate) : M loc :=
  b <- load blder;;
  _ <- update blder (set_predicates (predicates b ++ [p]));;
  ret blder.

Definition ControllerManagedBy (m : option Manager) : M loc :=
  blder <- SimpleController;;
  WithManager blder m.

(** *** The five steps of [Build] *)

Definition doConfig (blder : loc) : M (option error) :=
  b <- load blder;;
  if notNil (config b) then ret None
  else
    match mgr b with
    | Some m =>
        _ <- update blder (set_config (GetConfig m));;
        ret None
    | None =>
        a <- call_getConfig;;
        _ <- update blder (set_config (fst a));;
        ret (snd a)
    end.

Definition doManager (blder : loc) : M (option error) :=
  b <- load blder;;
  if notNil (mgr b) then ret None
  else
    a <- call_newManager (config b);;
    _ <- update blder (set_mgr (fst a));;
    ret (snd a).

Definition getControllerName (blder : loc) : M (string * option error) :=
  b <- load blder;;
  m <- deref (mgr b);;
  a <- call_getGvk (apiType b) (GetScheme m);;
  let gvk := fst a in
  let err := snd a in
  if notNil err then ret (""%string, err)
  else
    let name := Sprintf_application (strings.ToLower (Kind gvk)) in
    ret (name, None).

Definition doController (blder : loc) (r : option Reconciler) : M (option error) :=
  a <- getControllerName blder;;
  let name := fst a in
  let err := snd a in
  if notNil err then ret err
  else
    b <- load blder;;
    a <- call_newController name (mgr b) r;;
    _ <- update blder (set_ctrl (fst a));;
    ret (snd a).

(** The type assertion [apiType.(admission.Defaulter)] in its comma-ok
    form: it fails on nil. *)
Definition asDefaulter (apiType : option Object) : option Object :=
  match apiType with
  | Some o => if implementsDefaulter o then Some o else None
  | None => None
  end.

Definition asValidator (apiType : option Object) : option Object :=
  match apiType with
  | Some o => if implementsValidator o then Some o else None
  | None => None
  end.

Definition partialPath (gvk : GroupVersionKind) : string :=
  (strings.Replace (Group gvk) "." "-" (-1) ++ "-" ++
   Version gvk ++ "-" ++ strings.ToLower (Kind gvk))%string.

Definition doWebhook (blder : loc) : M (option error) :=
  b <- load blder;;
  m <- deref (mgr b);;
  a <- call_GVKForObject (apiType b) (GetScheme m);;
  let gvk := fst a in
  let err := snd a in
  if notNil err then ret err
  else
    _ <- match asDefaulter (apiType b) with
         | Some defaulter =>
             mwh <- call_DefaultingWebhookFor defaulter;;
             match mwh with
             | Some hook =>
                 let path := ("/mutate-" ++ partialPath gvk)%string in
                 _ <- log_Info "Registering a mutating webhook" gvk path;;
                 b <- load blder;;
                 m <- deref (mgr b);;
                 call_Register (GetWebhookServer m) path hook
             | None => ret tt
             end
         | None => ret tt
         end;;
    _ <- match asValidator (apiType b) with
         | Some validator =>
             vwh <- call_ValidatingWebhookFor validator;;
             match vwh with
             | Some hook =>
                 let path := ("/validate-" ++ partialPath gvk)%string in
                 _ <- log_Info "Registering a validating webhook" gvk path;;
                 b <- load blder;;
                 m <- deref (mgr b);;
                 call_Register (GetWebhookServer m) path hook
             | None => ret tt
             end
         | None => ret tt
         end;;
    ret err.

(** The loop over [blder.managedObjects]; [Some e] is the early return. *)
Fixpoint watchManaged (blder : loc) (objs : list (option Object)) : M (option error) :=
  match objs with
  | [] => ret None
  | obj :: rest =>
      b <- load blder;;
      let src := SourceKind obj in
      let hdler := EnqueueRequestForOwner (apiType b) true in
      c <- deref (ctrl b);;
      err <- call_Watch c src hdler (predicates b);;
      if notNil err then ret err
      else watchManaged blder rest
  end.

(** The loop over [blder.watchRequest]. *)
Fixpoint watchRequested (blder : loc) (ws : list watchRequest) : M (option error) :=
  match ws with
  | [] => ret None
  | w :: rest =>
      b <- load blder;;
      c <- deref (ctrl b);;
      err <- call_Watch c (src w) (eventhandler w) (predicates b);;
      if notNil err then ret err
      else watchRequested blder rest
  end.

Definition doWatch (blder : loc) : M (option error) :=
  b <- load blder;;
  let src := SourceKind (apiType b) in
  let hdler := EnqueueRequestForObject in
  c <- deref (ctrl b);;
  err <- call_Watch c src hdler (predicates b);;
  if notNil err then ret err
  else
    b <- load blder;;
    err <- watchManaged blder (managedObjects b);;
    if notNil err then ret err
    else
      b <- load blder;;
      err <- watchRequested blder (watchRequests b);;
      if notNil err then ret err
      else ret None.

(** *** [Build] and [Complete] *)

Definition Build (blder : loc) (r : option Reconciler) : M (option Manager * option error) :=
  if negb (notNil r) then ret (None, Some (Errorf "must provide a non-nil Reconciler"))
  else
    err <- doConfig blder;;
    if notNil err then ret (None, err)
    else
      err <- doManager blder;;
      if notNil err then ret (None, err)
      else
        err <- doController blder r;;
        if notNil err then ret (None, err)
        else
          err <- doWebhook blder;;
          if notNil err then ret (None, err)
          else
            err <- doWatch blder;;
            if notNil err then ret (None, err)
            else
              b <- load blder;;
              ret (mgr b, None).

Definition Complete (blder : loc) (r : option Reconciler) : M (option error) :=
  a <- Build blder r;;
  ret (snd a).

End Methods.

(** ** A concrete framework: the mocks of a test *)

Module Demo.

(** Every opaque value is named by a string; the scheme is unique. *)
#[local] Instance framework : Framework := {|
  Object := string;
  Scheme := unit;
  Config := string;
  Manager := string;
  Controller := string;
  Reconciler := string;
  Predicate := string;
  Webhook := string;
  WebhookServer := string;
  OtherSource := string;
  OtherHandler := string;
  ExternalError := string;
  GetConfig := fun m => Some ("config of " ++ m)%string;
  GetScheme := fun _ => tt;
  GetWebhookServer := fun m => ("server of " ++ m)%string;
  implementsDefaulter := fun o => String.eqb o "Foo";
  implementsValidator := fun o => String.eqb o "Foo"
|}.

(** The scheme knows three types. *)
Definition gvkOf (obj : option string) : GroupVersionKind * option error :=
  match obj with
  | Some o =>
      if String.eqb o "Foo" then (mkGVK "apps.example.com" "v1" "Foo", None)
      else if String.eqb o "Widget" then (mkGVK "example.com" "v1beta1" "Widget", None)
      else if String.eqb o "Pod" then (mkGVK "" "v1" "Pod", None)
      else (mkGVK "" "" "", Some (External "no kind is registered for the type"))
  | None => (mkGVK "" "" "", Some (External "no kind is registered for the type"))
  end.

(** A controller refuses to watch Secrets. *)
Definition watchOf (s : Source) : option error :=
  match s with
  | SourceKind (Some o) =>
      if String.eqb o "Secret" then Some (External "secrets are not watched") else None
  | _ => None
  end.

(** The framework when everything works. *)
Definition env : Env := {|
  getConfig := fun _ => (Some "ambient config", None);
  newManager := fun _ cfg => (Some "new manager", None);
  getGvk := fun _ obj _ => gvkOf obj;
  newController := fun _ name m r => (Some ("controller " ++ name)%string, None);
  GVKForObject := fun _ obj _ => gvkOf obj;
  DefaultingWebhookFor := fun _ o => Some ("defaulting webhook for " ++ o)%string;
  ValidatingWebhookFor := fun _ o => Some ("validating webhook for " ++ o)%string;
  Watch := fun _ c s h prct => watchOf s
|}.

(** [getGvk] swapped for a mock that knows every type, while
    [apiutil.GVKForObject] knows none. *)
Definition envMockedGvk : Env := {|
  getConfig := getConfig env;
  newManager := newManager env;
  getGvk := fun _ obj _ => (mkGVK "mock.io" "v1" "Mock", None);
  newController := newController env;
  GVKForObject := fun _ obj _ =>
    (mkGVK "" "" "", Some (External "no kind is registered for the type"));
  DefaultingWebhookFor := DefaultingWebhookFor env;
  ValidatingWebhookFor := ValidatingWebhookFor env;
  Watch := Watch env
|}.

(** No config is discovered. *)
Definition envNoConfig : Env := {|
  getConfig := fun _ => (None, Some (External "could not locate a kubeconfig"));
  newManager := newManager env;
  getGvk := getGvk env;
  newController := newController env;
  GVKForObject := GVKForObject env;
  DefaultingWebhookFor := DefaultingWebhookFor env;
  ValidatingWebhookFor := ValidatingWebhookFor env;
  Watch := Watch env
|}.

(** The webhook constructors make nothing. *)
Definition envNoWebhook : Env := {|
  getConfig := getConfig env;
  newManager := newManager env;
  getGvk := getGvk env;
  newController := newController env;
  GVKForObject := GVKForObject env;
  DefaultingWebhookFor := fun _ _ => None;
  ValidatingWebhookFor := fun _ _ => None;
  Watch := Watch env
|}.


(** [newController] answers a controller together with an error. *)
Definition envFailedController : Env := {|
  getConfig := getConfig env;
  newManager := newManager env;
  getGvk := getGvk env;
  newController := fun _ _ _ _ =>
    (Some "controller not started", Some (External "the name is taken"));
  GVKForObject := GVKForObject env;
  DefaultingWebhookFor := DefaultingWebhookFor env;
  ValidatingWebhookFor := ValidatingWebhookFor env;
  Watch := Watch env
|}.

Definition start : State := mkState ∅ [].

(** The state a chain of calls leads to, and what the last one returned. *)
Definition run {A : Type} (m : M A) : Outcome A * State := m start.

(** [ControllerManagedBy(m).For(Foo).Owns(Pod).Watches(..).WithEventFilter(..)] *)
Definition chainFoo : M loc :=
  blder <- ControllerManagedBy (Some "mgr");;
  blder <- For blder (Some "Foo");;
  blder <- Owns blder (Some "Pod");;
  blder <- Watches blder (SourceOther "channel") (HandlerOther "enqueue mapped");;
  WithEventFilter blder "generation changed".

(** [SimpleController().For(Widget)]: neither a config nor a manager. *)
Definition chainWidget : M loc :=
  blder <- SimpleController;;
  For blder (Some "Widget").

(** A Secret is owned: its watch will be refused. *)
Definition chainSecret : M loc :=
  blder <- ControllerManagedBy (Some "mgr");;
  blder <- For blder (Some "Foo");;
  blder <- Owns blder (Some "Secret");;
  Owns blder (Some "Pod").

(** The same type is owned twice. *)
Definition chainTwice : M loc :=
  blder <- ControllerManagedBy (Some "mgr");;
  blder <- For blder (Some "Foo");;
  blder <- Owns blder (Some "Pod");;
  Owns blder (Some "Pod").

(** The builders these chains leave at address 1. *)
Definition builderFoo : Builder :=
  mkBuilder (Some "Foo") (Some "mgr") ["generation changed"] [Some "Pod"]
            [mkWatchRequest (SourceOther "channel") (HandlerOther "enqueue mapped")]
            None None.

Definition builderWidget : Builder :=
  mkBuilder (Some "Widget") None [] [] [] None None.

Definition builderSecret : Builder :=
  mkBuilder (Some "Foo") (Some "mgr") [] [Some "Secret"; Some "Pod"] [] None None.

Definition builderTwice : Builder :=
  mkBuilder (Some "Foo") (Some "mgr") [] [Some "Pod"; Some "Pod"] [] None None.

(** The first three steps of [Build], up to the webhook step. *)
Definition untilWebhook (e : Env) (blder : loc) (r : option Reconciler) : M (option error) :=
  _ <- doConfig e blder;;
  _ <- doManager e blder;;
  doController e blder r.

Definition stateFoo : State := snd (run chainFoo).
Definition stateWidget : State := snd (run chainWidget).
Definition stateSecret : State := snd (run chainSecret).
Definition stateTwice : State := snd (run chainTwice).

(** The state in which the webhook step of [Build] starts, after
    [chainFoo] and a reconciler "r". *)
Definition beforeWebhook (e : Env) : State :=
  snd (untilWebhook e 1%positive (Some "r") stateFoo).

(** The builder found there: config and controller are resolved. *)
Definition builderResolved (c : string) : Builder :=
  mkBuilder (Some "Foo") (Some "mgr") ["generation changed"] [Some "Pod"]
            [mkWatchRequest (SourceOther "channel") (HandlerOther "enqueue mapped")]
            (Some "config of mgr") (Some c).

(** The number of distinct owned types of a builder. *)
Definition distinct_owned (b : Builder) : nat :=
  length (@remove_dups (option string) _ (managedObjects b)).

End Demo.

(** ** The vocabulary of the properties *)



Section Vocabulary.

Context {F : Framework}.

(** The state after a method that leaves [b'] in the builder's cell and
    makes the calls [evs]. *)
Definition upd (blder : loc) (b' : Builder) (evs : list Event) (st : State) : State :=
  mkState (<[blder := b']> (heap st)) (trace st ++ evs).

(** The error a call answered with ([None] for nil, and for the calls that
    return no error). *)
Definition ev_err (e : Event) : option error :=
  match e with
  | EvGetConfig _ err => err
  | EvNewManager _ _ err => err
  | EvGetGvk _ _ _ err => err
  | EvNewController _ _ _ _ err => err
  | EvGVKForObject _ _ _ err => err
  | EvWatch _ _ _ _ err => err
  | EvDefaultingWebhookFor _ _ => None
  | EvValidatingWebhookFor _ _ => None
  | EvLogInfo _ _ _ => None
  | EvRegister _ _ _ => None
  end.

(** The step of [Build] that makes a call. *)
Inductive Step : Type := StConfig | StManager | StController | StWebhook | StWatch.

Definition step_of (e : Event) : Step :=
  match e with
  | EvGetConfig _ _ => StConfig
  | EvNewManager _ _ _ => StManager
  | EvGetGvk _ _ _ _ => StController
  | EvNewController _ _ _ _ _ => StController
  | EvGVKForObject _ _ _ _ => StWebhook
  | EvDefaultingWebhookFor _ _ => StWebhook
  | EvValidatingWebhookFor _ _ => StWebhook
  | EvLogInfo _ _ _ => StWebhook
  | EvRegister _ _ _ => StWebhook
  | EvWatch _ _ _ _ _ => StWatch
  end.

Definition step_eqb (s t : Step) : bool :=
  match s, t with
  | StConfig, StConfig | StManager, StManager | StController, StController
  | StWebhook, StWebhook | StWatch, StWatch => true
  | _, _ => false
  end.

(** The calls of one step, in order. *)
Definition calls_of (s : Step) (evs : list Event) : list Event :=
  List.filter (fun e => step_eqb (step_of e) s) evs.

(** The calls made between the state [st] and the later state [st']. *)
Definition new_calls (st st' : State) : list Event :=
  drop (length (trace st)) (trace st').

(** No call of the list answered with an error. *)
Definition all_nil (evs : list Event) : Prop :=
  Forall (fun e => ev_err e = None) evs.

(** Calls are fail-fast when the only one that may have answered with an
    error is the last one, and that error is what is returned after them. *)
Definition fail_fast (o : Outcome (option error)) (evs : list Event) : Prop :=
  match o with
  | Done (Some e) =>
      exists pre ev, evs = pre ++ [ev] /\ all_nil pre /\ ev_err ev = Some e
  | _ => all_nil evs
  end.

(** All the calls are calls of the step [t]. *)
Definition tagged (t : Step) (evs : list Event) : Prop :=
  Forall (fun e => step_of e = t) evs.

(** The webhooks registered by the calls, in order. *)
Definition registrations (evs : list Event) : list (WebhookServer * String.string * Webhook) :=
  flat_map (fun e => match e with
                     | EvRegister srv path hook => [(srv, path, hook)]
                     | _ => []
                     end) evs.

End Vocabulary.

Section Plans.

Context {F : Framework}.
Variable env : Env.

(** The [Watch] calls [doWatch] is to make, in order: the reconciled type,
    the owned types, the free-form requests. *)
Definition watch_plan (b : Builder) : list (Source * EventHandler) :=
  (SourceKind (apiType b), EnqueueRequestForObject)
  :: map (fun obj => (SourceKind obj, EnqueueRequestForOwner (apiType b) true))
         (managedObjects b)
  ++ map (fun w => (src w, eventhandler w)) (watchRequests b).

(** A list of [Watch] calls made one after the other on the controller [c]
    until one fails: the calls made and the error of the last one. *)
Fixpoint run_watches (c : Controller) (prct : list Predicate)
    (plan : list (Source * EventHandler)) (hist : list Event) : list Event * option error :=
  match plan with
  | [] => ([], None)
  | (s, h) :: rest =>
      let err := Watch env hist c s h prct in
      let ev := EvWatch c s h prct err in
      if notNil err then ([ev], err)
      else
        let r := run_watches c prct rest (hist ++ [ev]) in
        (ev :: fst r, snd r)
  end.

(** The calls of the defaulting half of [doWebhook], made after [hist]. *)
Definition mutating_calls (hist : list Event) (apiType : option Object) (m : Manager)
    (gvk : GroupVersionKind) : list Event :=
  match asDefaulter apiType with
  | Some defaulter =>
      let mwh := DefaultingWebhookFor env hist defaulter in
      EvDefaultingWebhookFor defaulter mwh ::
      match mwh with
      | Some hook =>
          let path := ("/mutate-" ++ partialPath gvk)%string in
          [EvLogInfo "Registering a mutating webhook" gvk path;
           EvRegister (GetWebhookServer m) path hook]
      | None => []
      end
  | None => []
  end.

(** The calls of the validating half. *)
Definition validating_calls (hist : list Event) (apiType : option Object) (m : Manager)
    (gvk : GroupVersionKind) : list Event :=
  match asValidator apiType with
  | Some validator =>
      let vwh := ValidatingWebhookFor env hist validator in
      EvValidatingWebhookFor validator vwh ::
      match vwh with
      | Some hook =>
          let path := ("/validate-" ++ partialPath gvk)%string in
          [EvLogInfo "Registering a validating webhook" gvk path;
           EvRegister (GetWebhookServer m) path hook]
      | None => []
      end
  | None => []
  end.

(** What a step of [Build] does, as a function of the builder it finds and
    of the calls made before it: how it ends, the builder it leaves and the
    calls it makes. *)
Record StepResult : Type := mkStep {
  outcome : Outcome (option error);
  builder : Builder;
  calls : list Event
}.

Definition config_step (b : Builder) (hist : list Event) : StepResult :=
  if notNil (config b) then mkStep (Done None) b []
  else
    match mgr b with
    | Some m => mkStep (Done None) (set_config (GetConfig m) b) []
    | None =>
        let a := getConfig env hist in
        mkStep (Done (snd a)) (set_config (fst a) b) [EvGetConfig (fst a) (snd a)]
    end.

Definition manager_step (b : Builder) (hist : list Event) : StepResult :=
  if notNil (mgr b) then mkStep (Done None) b []
  else
    let a := newManager env hist (config b) in
    mkStep (Done (snd a)) (set_mgr (fst a) b) [EvNewManager (config b) (fst a) (snd a)].

Definition controller_step (r : option Reconciler) (b : Builder) (hist : list Event)
  : StepResult :=
  match mgr b with
  | None => mkStep Panic b []
  | Some m =>
      let a := getGvk env hist (apiType b) (GetScheme m) in
      let ev := EvGetGvk (apiType b) (GetScheme m) (fst a) (snd a) in
      if notNil (snd a) then mkStep (Done (snd a)) b [ev]
      else
        let name := Sprintf_application (strings.ToLower (Kind (fst a))) in
        let c := newController env (hist ++ [ev]) name (mgr b) r in
        mkStep (Done (snd c)) (set_ctrl (fst c) b)
               [ev; EvNewController name (mgr b) r (fst c) (snd c)]
  end.

Definition webhook_step (b : Builder) (hist : list Event) : StepResult :=
  match mgr b with
  | None => mkStep Panic b []
  | Some m =>
      let a := GVKForObject env hist (apiType b) (GetScheme m) in
      let ev := EvGVKForObject (apiType b) (GetScheme m) (fst a) (snd a) in
      if notNil (snd a) then mkStep (Done (snd a)) b [ev]
      else
        let e1 := mutating_calls (hist ++ [ev]) (apiType b) m (fst a) in
        let e2 := validating_calls (hist ++ [ev] ++ e1) (apiType b) m (fst a) in
        mkStep (Done None) b ([ev] ++ e1 ++ e2)
  end.

Definition watch_step (b : Builder) (hist : list Event) : StepResult :=
  match ctrl b with
  | None => mkStep Panic b []
  | Some c =>
      let r := run_watches c (predicates b) (watch_plan b) hist in
      mkStep (Done (snd r)) b (fst r)
  end.

(** Steps run one after the other, until one does not return nil. *)
Fixpoint run_steps (steps : list (Builder -> list Event -> StepResult))
    (b : Builder) (hist : list Event) : StepResult :=
  match steps with
  | [] => mkStep (Done None) b []
  | f :: rest =>
      let s := f b hist in
      match outcome s with
      | Done None =>
          let t := run_steps rest (builder s) (hist ++ calls s) in
          mkStep (outcome t) (builder t) (calls s ++ calls t)
      | _ => s
      end
  end.

Definition build_steps (r : option Reconciler)
  : list (Builder -> list Event -> StepResult) :=
  [config_step; manager_step; controller_step r; webhook_step; watch_step].

(** The state a step leaves when it runs on the builder at [blder]. *)
Definition step_at (blder : loc) (st : State) (s : StepResult)
  : Outcome (option error) * State :=
  (outcome s, upd blder (builder s) (calls s) st).

(** What [Build] returns after its steps. *)
Definition build_result (s : StepResult) : Outcome (option Manager * option error) :=
  match outcome s with
  | Done None => Done (mgr (builder s), None)
  | Done (Some e) => Done (None, Some e)
  | Panic => Panic
  end.

End Plans.

(** ** Fluent chains and further vocabulary *)

Section Chains.

Context {F : Framework}.

(** One call of a fluent chain [blder.For(..).Owns(..)...]. *)
Inductive Setter : Type :=
| CallFor (apiType : option Object)
| CallForType (apiType : option Object)
| CallOwns (apiType : option Object)
| CallWatches (src : Source) (eventhandler : EventHandler)
| CallWithConfig (config : option Config)
| CallWithManager (m : option Manager)
| CallWithEventFilter (p : Predicate).

Definition call_setter (blder : loc) (c : Setter) : M loc :=
  match c with
  | CallFor a => For blder a
  | CallForType a => ForType blder a
  | CallOwns a => Owns blder a
  | CallWatches s h => Watches blder s h
  | CallWithConfig c => WithConfig blder c
  | CallWithManager m => WithManager blder m
  | CallWithEventFilter p => WithEventFilter blder p
  end.

(** The calls of a chain, each made on what the one before returned. *)
Fixpoint chain (blder : loc) (cs : list Setter) : M loc :=
  match cs with
  | [] => ret blder
  | c :: rest => blder' <- call_setter blder c;; chain blder' rest
  end.

(** What a chain says about each field: the last value given for the
    fields that are overwritten, the values given, in order, for the lists. *)
Definition chained_apiType (cs : list Setter) (d : option Object) : option Object :=
  fold_left (fun acc c => match c with
                          | CallFor a => a
                          | CallForType a => a
                          | _ => acc
                          end) cs d.

Definition chained_config (cs : list Setter) (d : option Config) : option Config :=
  fold_left (fun acc c => match c with CallWithConfig x => x | _ => acc end) cs d.

Definition chained_mgr (cs : list Setter) (d : option Manager) : option Manager :=
  fold_left (fun acc c => match c with CallWithManager x => x | _ => acc end) cs d.

Definition chained_owned (cs : list Setter) : list (option Object) :=
  flat_map (fun c => match c with CallOwns a => [a] | _ => [] end) cs.

Definition chained_watches (cs : list Setter) : list watchRequest :=
  flat_map (fun c => match c with CallWatches s h => [mkWatchRequest s h] | _ => [] end) cs.

Definition chained_filters (cs : list Setter) : list Predicate :=
  flat_map (fun c => match c with CallWithEventFilter p => [p] | _ => [] end) cs.

(** What a [Watch] call was asked, without its answer. *)
Definition watched (e : Event) : list (Controller * Source * EventHandler * list Predicate) :=
  match e with
  | EvWatch c s h prct _ => [(c, s, h, prct)]
  | _ => []
  end.

End Chains.

(** A continuation of [Demo.chainFoo]:
    [.Owns(Pod).For(Foo).WithEventFilter(..).Owns(Secret).For(Widget)]. *)
Definition moreCalls : list (@Setter Demo.framework) :=
  [@CallOwns Demo.framework (Some "Pod"%string);
   @CallFor Demo.framework (Some "Foo"%string);
   @CallWithEventFilter Demo.framework "generation changed"%string;
   @CallOwns Demo.framework (Some "Secret"%string);
   @CallFor Demo.framework (Some "Widget"%string)].

(** ** The string functions on examples *)

Example ToLower_Widget : strings.ToLower "Widget" = "widget".
Proof. reflexivity. Qed.

Example Replace_group : strings.Replace "apps.example.com" "." "-" (-1) = "apps-example-com".
Proof. reflexivity. Qed.

Example Replace_first : strings.Replace "oink oink oink" "oink" "moo" 2 = "moo moo oink".
Proof. reflexivity. Qed.

Example Replace_overlap : strings.Replace "aaaa" "aa" "b" (-1) = "bb".
Proof. reflexivity. Qed.

Example Replace_empty_old : strings.Replace "abc" "" "-" 2 = "-a-bc".
Proof. reflexivity. Qed.

(** ** The monad and the heap *)

Section Basics.

Context {F : Framework}.
Variable env : Env.

Lemma upd_lookup blder b' evs st : heap (upd blder b' evs st) !! blder = Some b'.
Proof. unfold upd; simpl. apply lookup_insert_eq. Qed.

Lemma upd_upd blder b1 e1 b2 e2 st :
  upd blder b2 e2 (upd blder b1 e1 st) = upd blder b2 (e1 ++ e2) st.
Proof. unfold upd; simpl. by rewrite insert_insert_eq, <- app_assoc. Qed.

Lemma upd_id blder b st : heap st !! blder = Some b -> upd blder b [] st = st.
Proof.
  intros H. destruct st as [h t]; unfold upd; simpl in *.
  by rewrite insert_id, app_nil_r.
Qed.

Lemma upd_trace blder b' evs st : trace (upd blder b' evs st) = trace st ++ evs.
Proof. reflexivity. Qed.

Lemma emit_upd blder b evs st :
  heap st !! blder = Some b -> mkState (heap st) (trace st ++ evs) = upd blder b evs st.
Proof. intros H. unfold upd. by rewrite insert_id. Qed.

End Basics.

(** ** What each step does, as an equation *)

Section Steps.

Context {F : Framework}.
Variable env : Env.
Variable blder : loc.

Ltac mrun H :=
  unfold bind, ret, panic, load, update, deref, history, emit; simpl;
  repeat (rewrite ?H, ?lookup_insert_eq; simpl).

Lemma doConfig_eq b st :
  heap st !! blder = Some b ->
  doConfig env blder st = step_at blder st (config_step env b (trace st)).
Proof.
  intros H. unfold doConfig, call_getConfig, config_step, step_at. mrun H.
  destruct (config b); simpl.
  { by rewrite upd_id. }
  destruct (mgr b); simpl; mrun H; [|done].
  unfold upd. by rewrite app_nil_r.
Qed.

Lemma doManager_eq b st :
  heap st !! blder = Some b ->
  doManager env blder st = step_at blder st (manager_step env b (trace st)).
Proof.
  intros H. unfold doManager, call_newManager, manager_step, step_at. mrun H.
  destruct (mgr b); simpl.
  { by rewrite upd_id. }
  by mrun H.
Qed.

Lemma getControllerName_eq b st :
  heap st !! blder = Some b ->
  getControllerName env blder st =
    match mgr b with
    | None => (Panic, st)
    | Some m =>
        let a := getGvk env (trace st) (apiType b) (GetScheme m) in
        let ev := EvGetGvk (apiType b) (GetScheme m) (fst a) (snd a) in
        (Done (if notNil (snd a) then (""%string, snd a)
               else (Sprintf_application (strings.ToLower (Kind (fst a))), None)),
         upd blder b [ev] st)
    end.
Proof.
  intros H. unfold getControllerName, call_getGvk. mrun H.
  destruct (mgr b); simpl; [|done]. mrun H.
  rewrite (emit_upd blder b) by done.
  by destruct (snd (getGvk env _ _ _)).
Qed.

Lemma doController_eq b r st :
  heap st !! blder = Some b ->
  doController env blder r st = step_at blder st (controller_step env r b (trace st)).
Proof.
  intros H. unfold doController, controller_step, step_at, bind at 1.
  rewrite (getControllerName_eq b) by done.
  destruct (mgr b) as [m|] eqn:Hm; simpl.
  2:{ by rewrite upd_id. }
  destruct (snd (getGvk env _ _ _)) eqn:Hg; simpl; [done|].
  unfold call_newController. mrun (upd_lookup blder b [EvGetGvk (apiType b) (GetScheme m)
    (fst (getGvk env (trace st) (apiType b) (GetScheme m))) None] st).
  rewrite Hm. unfold upd; simpl.
  by rewrite !insert_insert_eq, <- app_assoc.
Qed.

Lemma doWebhook_eq b st :
  heap st !! blder = Some b ->
  doWebhook env blder st = step_at blder st (webhook_step env b (trace st)).
Proof.
  intros H. unfold doWebhook, call_GVKForObject, call_DefaultingWebhookFor,
    call_ValidatingWebhookFor, log_Info, call_Register, webhook_step, step_at. mrun H.
  destruct (mgr b) as [m|] eqn:Hm; simpl.
  2:{ by rewrite upd_id. }
  mrun H.
  destruct (snd (GVKForObject env _ _ _)) eqn:Hg; simpl.
  { by rewrite (emit_upd blder b). }
  unfold mutating_calls, validating_calls.
  destruct (asDefaulter (apiType b)) as [d|]; simpl;
    [destruct (DefaultingWebhookFor env _ d) as [mwh|]; simpl|];
    mrun H; rewrite ?Hm; simpl;
    (destruct (asValidator (apiType b)) as [v|]; simpl;
      [destruct (ValidatingWebhookFor env _ v) as [vwh|] eqn:Hv; simpl|]);
    mrun H; rewrite ?Hm; simpl;
    rewrite <- ?app_assoc in *; simpl in *; rewrite ?Hv; simpl;
    rewrite <- ?app_assoc; simpl; by rewrite (emit_upd blder b).
Qed.

Lemma run_watches_app c prct p1 p2 hist :
  run_watches env c prct (p1 ++ p2) hist =
    let r1 := run_watches env c prct p1 hist in
    if notNil (snd r1) then r1
    else
      let r2 := run_watches env c prct p2 (hist ++ fst r1) in
      (fst r1 ++ fst r2, snd r2).
Proof.
  revert hist. induction p1 as [|[s h] p1 IH]; intros hist; simpl.
  - rewrite app_nil_r. by destruct (run_watches env c prct p2 hist).
  - destruct (Watch env hist c s h prct) eqn:Hw; simpl; [done|].
    rewrite IH. simpl.
    destruct (snd (run_watches env c prct p1 _)) eqn:Hr; simpl.
    + rewrite Hr. by destruct (run_watches env c prct p1 _).
    + by rewrite <- app_assoc.
Qed.

Lemma watchManaged_eq b c objs st :
  heap st !! blder = Some b -> ctrl b = Some c ->
  watchManaged env blder objs st =
    let r := run_watches env c (predicates b)
               (map (fun obj => (SourceKind obj, EnqueueRequestForOwner (apiType b) true)) objs)
               (trace st) in
    (Done (snd r), mkState (heap st) (trace st ++ fst r)).
Proof.
  intros H Hc. revert st H. induction objs as [|obj objs IH]; intros st H; simpl.
  - unfold ret. rewrite app_nil_r. by destruct st.
  - unfold call_Watch. mrun H. rewrite Hc. mrun H.
    destruct (Watch env _ _ _ _ _) eqn:Hw; simpl; [done|].
    rewrite IH by done. simpl. by rewrite <- app_assoc.
Qed.

Lemma watchRequested_eq b c ws st :
  heap st !! blder = Some b -> ctrl b = Some c ->
  watchRequested env blder ws st =
    let r := run_watches env c (predicates b)
               (map (fun w => (src w, eventhandler w)) ws) (trace st) in
    (Done (snd r), mkState (heap st) (trace st ++ fst r)).
Proof.
  intros H Hc. revert st H. induction ws as [|w ws IH]; intros st H; simpl.
  - unfold ret. rewrite app_nil_r. by destruct st.
  - unfold call_Watch. mrun H. rewrite Hc. mrun H.
    destruct (Watch env _ _ _ _ _) eqn:Hw; simpl; [done|].
    rewrite IH by done. simpl. by rewrite <- app_assoc.
Qed.

Lemma doWatch_eq b st :
  heap st !! blder = Some b ->
  doWatch env blder st = step_at blder st (watch_step env b (trace st)).
Proof.
  intros H. unfold doWatch, call_Watch, watch_step, step_at. mrun H.
  destruct (ctrl b) as [c|] eqn:Hc; simpl.
  2:{ by rewrite upd_id. }
  mrun H. unfold watch_plan. simpl.
  destruct (Watch env _ _ _ _ _) eqn:Hw; simpl.
  { by rewrite (emit_upd blder b). }
  rewrite H. simpl.
  rewrite (watchManaged_eq b c) by done. simpl.
  rewrite run_watches_app. simpl.
  destruct (snd (run_watches env c (predicates b) (map _ (managedObjects b)) _)) eqn:Hr1; simpl.
  { rewrite Hr1. rewrite <- app_assoc. simpl. by rewrite (emit_upd blder b). }
  mrun H. rewrite (watchRequested_eq b c) by done. simpl.
  rewrite <- !app_assoc. simpl.
  destruct (snd (run_watches env c (predicates b) (map _ (watchRequests b)) _)) eqn:Hr2;
    simpl; by rewrite (emit_upd blder b).
Qed.


Lemma run_steps_cons f rest b hist :
  run_steps (f :: rest) b hist =
    match outcome (f b hist) with
    | Done None =>
        let t := run_steps rest (builder (f b hist)) (hist ++ calls (f b hist)) in
        mkStep (outcome t) (builder t) (calls (f b hist) ++ calls t)
    | _ => f b hist
    end.
Proof. reflexivity. Qed.

(** One [if err := step(); err != nil { return nil, err }] of [Build]. *)
Lemma Build_chain (m : M (option error)) (k : M (option Manager * option error))
    f rest b0 e0 st :
  m (upd blder b0 e0 st) =
    step_at blder (upd blder b0 e0 st) (f b0 (trace (upd blder b0 e0 st))) ->
  (forall b1 e1,
     k (upd blder b1 (e0 ++ e1) st) =
       let s := run_steps rest b1 (trace st ++ e0 ++ e1) in
       (build_result s, upd blder (builder s) ((e0 ++ e1) ++ calls s) st)) ->
  (err <- m;; if notNil err then ret (None, err) else k) (upd blder b0 e0 st) =
    let s := run_steps (f :: rest) b0 (trace st ++ e0) in
    (build_result s, upd blder (builder s) (e0 ++ calls s) st).
Proof.
  intros Hm Hk. unfold bind. rewrite Hm, upd_trace. unfold step_at. cbv zeta.
  rewrite run_steps_cons.
  destruct (f b0 (trace st ++ e0)) as [o1 b1 e1]. cbn [outcome builder calls].
  rewrite upd_upd.
  destruct o1 as [[e|]|]; cbn [notNil]; try reflexivity.
  rewrite Hk. cbv zeta. unfold build_result. cbn [outcome builder calls].
  by rewrite <- !app_assoc.
Qed.

Lemma Build_eq b r st :
  heap st !! blder = Some b ->
  Build env blder (Some r) st =
    let s := run_steps (build_steps env (Some r)) b (trace st) in
    (build_result s, upd blder (builder s) (calls s) st).
Proof.
  intros H.
  assert (forall b0 e0,
    Build env blder (Some r) (upd blder b0 e0 st) =
      let s := run_steps (build_steps env (Some r)) b0 (trace st ++ e0) in
      (build_result s, upd blder (builder s) (e0 ++ calls s) st)) as G.
  { intros b0 e0. unfold Build, build_steps. cbn [notNil negb].
    apply Build_chain; [apply doConfig_eq, upd_lookup|]. intros b1 e1.
    apply Build_chain; [apply doManager_eq, upd_lookup|]. intros b2 e2.
    apply Build_chain; [apply doController_eq, upd_lookup|]. intros b3 e3.
    apply Build_chain; [apply doWebhook_eq, upd_lookup|]. intros b4 e4.
    apply Build_chain; [apply doWatch_eq, upd_lookup|]. intros b5 e5.
    unfold bind, load, ret. rewrite upd_lookup. cbn. by rewrite app_nil_r. }
  specialize (G b []). rewrite upd_id, app_nil_r in G by done. exact G.
Qed.
(** [Complete] is [Build] without the manager. *)
Lemma Complete_eq r st :
  Complete env blder r st =
    (match fst (Build env blder r st) with
     | Done a => Done (snd a)
     | Panic => Panic
     end,
     snd (Build env blder r st)).
Proof.
  unfold Complete, bind, ret. by destruct (Build env blder r st) as [[a|] st'].
Qed.

End Steps.

(** ** Properties of the steps and of their sequence *)

Section Runs.

Context {F : Framework}.
Variable env : Env.

Lemma new_calls_upd blder b evs (st : State) : new_calls st (upd blder b evs st) = evs.
Proof. unfold new_calls, upd; simpl. by rewrite drop_app_length. Qed.

Lemma split_at_last {A : Type} (pre post pre' : list A) (x y : A) :
  pre ++ x :: post = pre' ++ [y] ->
  (post = [] /\ pre = pre' /\ x = y) \/ In x pre'.
Proof.
  intros E. destruct (exists_last (l := x :: post)) as (l & z & Hl); [done|].
  destruct post as [|p post].
  - left. apply app_inj_tail in E as [-> ->]. done.
  - right. rewrite Hl, app_assoc in E. apply app_inj_tail in E as [<- _].
    destruct l as [|l0 l]; simpl in Hl.
    + discriminate.
    + injection Hl as <- _. apply in_or_app. right. by left.
Qed.

(** In fail-fast calls, a call that answered with an error is the last
    one, and that error is returned. *)
Lemma fail_fast_last o evs pre ev post e :
  fail_fast o evs -> evs = pre ++ ev :: post -> ev_err ev = Some e ->
  post = [] /\ o = Done (Some e).
Proof.
  unfold fail_fast, all_nil. intros Hs E He.
  assert (forall l, Forall (fun e => ev_err e = None) l -> In ev l -> False) as Hno.
  { intros l Hl Hin. rewrite Forall_forall in Hl.
    apply list_elem_of_In, Hl in Hin. congruence. }
  destruct o as [[e'|]|].
  - destruct Hs as (pre' & ev' & E' & Hpre & He'). rewrite E' in E.
    symmetry in E. apply split_at_last in E as [(-> & _ & ->)|Hin].
    + split; [done|]. congruence.
    + destruct (Hno _ Hpre Hin).
  - rewrite E in Hs. destruct (Hno _ Hs). apply in_or_app. right. by left.
  - rewrite E in Hs. destruct (Hno _ Hs). apply in_or_app. right. by left.
Qed.

(** An error returned after fail-fast calls is the answer of the last one. *)
Lemma fail_fast_error evs e :
  fail_fast (Done (Some e)) evs ->
  exists pre ev, evs = pre ++ [ev] /\ ev_err ev = Some e.
Proof. intros (pre & ev & E & _ & He). eauto. Qed.

Lemma run_steps_fail_fast steps :
  Forall (fun f => forall b h, fail_fast (outcome (f b h)) (calls (f b h))) steps ->
  forall b h, fail_fast (outcome (run_steps steps b h)) (calls (run_steps steps b h)).
Proof.
  induction 1 as [|f rest Hf _ IH]; intros b h.
  - constructor.
  - rewrite run_steps_cons. specialize (Hf b h).
    destruct (outcome (f b h)) as [[e|]|] eqn:Ho; rewrite ?Ho; try done.
    specialize (IH (builder (f b h)) (h ++ calls (f b h))).
    cbn [outcome calls]. unfold fail_fast in *.
    destruct (outcome (run_steps rest _ _)) as [[e|]|].
    + destruct IH as (pre & ev & E & Hpre & He).
      exists (calls (f b h) ++ pre), ev. rewrite E, app_assoc.
      split; [done|]. split; [|done]. by apply Forall_app.
    + by apply Forall_app.
    + by apply Forall_app.
Qed.

Lemma run_steps_app pre post b h :
  run_steps (pre ++ post) b h =
    let s := run_steps pre b h in
    match outcome s with
    | Done None =>
        let t := run_steps post (builder s) (h ++ calls s) in
        mkStep (outcome t) (builder t) (calls s ++ calls t)
    | _ => s
    end.
Proof.
  revert b h. induction pre as [|f pre IH]; intros b h.
  - simpl. rewrite app_nil_r. by destruct (run_steps post b h).
  - rewrite <- app_comm_cons, !run_steps_cons. cbv zeta.
    destruct (outcome (f b h)) as [[e|]|] eqn:Ho;
      cbn [outcome builder calls]; rewrite ?Ho; try done.
    rewrite IH. cbv zeta.
    destruct (outcome (run_steps pre _ _)) as [[e|]|] eqn:Hp;
      cbn [outcome builder calls]; rewrite ?Hp, <- ?app_assoc; done.
Qed.

Lemma run_steps_one f b h :
  outcome (run_steps [f] b h) = outcome (f b h) /\
  builder (run_steps [f] b h) = builder (f b h) /\
  calls (run_steps [f] b h) = calls (f b h).
Proof.
  rewrite run_steps_cons. simpl.
  destruct (outcome (f b h)) as [[e|]|] eqn:Ho; rewrite ?Ho; try done.
  by rewrite app_nil_r.
Qed.

(** A field that no step writes is the same after the steps. *)
Lemma run_steps_preserves {A : Type} (field : Builder -> A) steps :
  Forall (fun f => forall b h, field (builder (f b h)) = field b) steps ->
  forall b h, field (builder (run_steps steps b h)) = field b.
Proof.
  induction 1 as [|f rest Hf _ IH]; intros b h; [done|].
  rewrite run_steps_cons.
  destruct (outcome (f b h)) as [[e|]|]; try apply Hf.
  cbn [builder]. by rewrite IH.
Qed.

Lemma calls_of_app t l1 l2 : calls_of t (l1 ++ l2) = calls_of t l1 ++ calls_of t l2.
Proof. unfold calls_of. apply List.filter_app. Qed.

Lemma calls_of_tagged t t' evs :
  tagged t' evs -> calls_of t evs = if step_eqb t' t then evs else [].
Proof.
  unfold tagged, calls_of. induction 1 as [|e evs He _ IH]; simpl.
  - by destruct (step_eqb t' t).
  - rewrite He, IH. by destruct (step_eqb t' t).
Qed.

(** The calls of one step among the calls of a sequence of steps of which
    it is the only one to make calls of its kind: they are there when the
    steps before it have all returned nil. *)
Lemma run_steps_calls_of t pre f post b h :
  Forall (fun g => forall b h, calls_of t (calls (g b h)) = []) pre ->
  (forall b h, calls_of t (calls (f b h)) = calls (f b h)) ->
  Forall (fun g => forall b h, calls_of t (calls (g b h)) = []) post ->
  calls_of t (calls (run_steps (pre ++ f :: post) b h)) =
    let sp := run_steps pre b h in
    match outcome sp with
    | Done None => calls (f (builder sp) (h ++ calls sp))
    | _ => []
    end.
Proof.
  intros Hpre Hf Hpost.
  assert (forall steps, Forall (fun g => forall b h, calls_of t (calls (g b h)) = []) steps ->
          forall b h, calls_of t (calls (run_steps steps b h)) = []) as Hnone.
  { induction 1 as [|g rest Hg _ IH]; intros b' h'; [done|].
    rewrite run_steps_cons.
    destruct (outcome (g b' h')) as [[e|]|]; try apply Hg.
    cbn [calls]. by rewrite calls_of_app, Hg, IH. }
  rewrite run_steps_app. cbv zeta.
  pose proof (Hnone pre Hpre b h) as Hp.
  destruct (outcome (run_steps pre b h)) as [[e|]|]; try done.
  cbn [calls]. rewrite calls_of_app, Hp, run_steps_cons. simpl.
  destruct (outcome (f _ _)) as [[e|]|]; try apply Hf.
  cbn [calls]. by rewrite calls_of_app, Hf, Hnone, app_nil_r.
Qed.

Lemma run_watches_tagged c prct plan hist :
  tagged StWatch (fst (run_watches env c prct plan hist)).
Proof.
  revert hist. induction plan as [|[s h] plan IH]; intros hist; simpl.
  - constructor.
  - destruct (Watch env hist c s h prct); simpl; repeat constructor. apply IH.
Qed.

Lemma config_step_tagged b h : tagged StConfig (calls (config_step env b h)).
Proof.
  unfold config_step.
  destruct (notNil (config b)); [constructor|].
  destruct (mgr b); by repeat constructor.
Qed.

Lemma manager_step_tagged b h : tagged StManager (calls (manager_step env b h)).
Proof.
  unfold manager_step. destruct (notNil (mgr b)); by repeat constructor.
Qed.

Lemma controller_step_tagged r b h : tagged StController (calls (controller_step env r b h)).
Proof.
  unfold controller_step. destruct (mgr b); [|constructor].
  destruct (notNil _); by repeat constructor.
Qed.

Lemma webhook_step_tagged b h : tagged StWebhook (calls (webhook_step env b h)).
Proof.
  unfold webhook_step. destruct (mgr b); [|constructor].
  destruct (notNil _); [by repeat constructor|].
  simpl. constructor; [done|]. apply Forall_app. split.
  - unfold mutating_calls. destruct (asDefaulter _); [|constructor].
    destruct (DefaultingWebhookFor _ _ _); by repeat constructor.
  - unfold validating_calls. destruct (asValidator _); [|constructor].
    destruct (ValidatingWebhookFor _ _ _); by repeat constructor.
Qed.

Lemma watch_step_tagged b h : tagged StWatch (calls (watch_step env b h)).
Proof.
  unfold watch_step. destruct (ctrl b); [|constructor]. apply run_watches_tagged.
Qed.

(** The builder a step leaves: only its own field is written. *)
Lemma config_step_builder b h :
  exists c, builder (config_step env b h) = set_config c b /\
            (forall c0, config b = Some c0 -> c = Some c0).
Proof.
  unfold config_step. destruct b as [a m p mo w [c0|] ct]; simpl.
  - exists (Some c0). by split.
  - destruct m; eexists; (split; [reflexivity|done]).
Qed.

Lemma manager_step_builder b h :
  exists m, builder (manager_step env b h) = set_mgr m b /\
            (forall m0, mgr b = Some m0 -> m = Some m0).
Proof.
  unfold manager_step. destruct b as [a [m0|] p mo w c ct]; simpl.
  - exists (Some m0). by split.
  - eexists; (split; [reflexivity|done]).
Qed.

Lemma controller_step_builder r b h :
  exists c, builder (controller_step env r b h) = set_ctrl c b.
Proof.
  unfold controller_step. destruct b as [a m p mo w c ct]; simpl.
  destruct m; [|by exists ct].
  destruct (notNil _); [by exists ct|]. by eexists.
Qed.

Lemma webhook_step_builder b h : builder (webhook_step env b h) = b.
Proof.
  unfold webhook_step. destruct (mgr b); [|done]. by destruct (notNil _).
Qed.

Lemma watch_step_builder b h : builder (watch_step env b h) = b.
Proof. unfold watch_step. by destruct (ctrl b). Qed.

Lemma run_watches_fail_fast c prct plan hist :
  fail_fast (Done (snd (run_watches env c prct plan hist)))
            (fst (run_watches env c prct plan hist)).
Proof.
  revert hist. induction plan as [|[s h] plan IH]; intros hist; simpl.
  - constructor.
  - destruct (Watch env hist c s h prct) as [e|] eqn:Hw; simpl.
    + exists [], (EvWatch c s h prct (Some e)). repeat split. constructor.
    + specialize (IH (hist ++ [EvWatch c s h prct None])).
      unfold fail_fast in *.
      destruct (snd (run_watches env c prct plan _)) as [e|].
      * destruct IH as (pre & ev & E & Hpre & He).
        exists (EvWatch c s h prct None :: pre), ev. rewrite E.
        repeat split; [|done]. by constructor.
      * by constructor.
Qed.

Lemma config_step_fail_fast b h :
  fail_fast (outcome (config_step env b h)) (calls (config_step env b h)).
Proof.
  unfold config_step.
  destruct (notNil (config b)); [constructor|].
  destruct (mgr b); [constructor|]. simpl.
  destruct (snd (getConfig env h)) as [e|] eqn:He.
  - exists [], (EvGetConfig (fst (getConfig env h)) (Some e)). repeat split. constructor.
  - by repeat constructor.
Qed.

Lemma manager_step_fail_fast b h :
  fail_fast (outcome (manager_step env b h)) (calls (manager_step env b h)).
Proof.
  unfold manager_step.
  destruct (notNil (mgr b)); [constructor|]. simpl.
  destruct (snd (newManager env h _)) as [e|] eqn:He.
  - eexists [], _. repeat split. constructor.
  - by repeat constructor.
Qed.

Lemma controller_step_fail_fast r b h :
  fail_fast (outcome (controller_step env r b h)) (calls (controller_step env r b h)).
Proof.
  unfold controller_step.
  destruct (mgr b) as [m|]; [|constructor].
  destruct (snd (getGvk env h _ _)) as [e|] eqn:Hg; simpl.
  - eexists [], _. repeat split. constructor.
  - destruct (snd (newController env _ _ _ _)) as [e|] eqn:Hc.
    + eexists [_], _. repeat split. by repeat constructor.
    + by repeat constructor.
Qed.

Lemma webhook_calls_nil hist apiType m gvk :
  all_nil (mutating_calls env hist apiType m gvk) /\
  all_nil (validating_calls env hist apiType m gvk).
Proof.
  unfold mutating_calls, validating_calls, all_nil. split.
  - destruct (asDefaulter apiType); [|constructor].
    destruct (DefaultingWebhookFor env hist _); by repeat constructor.
  - destruct (asValidator apiType); [|constructor].
    destruct (ValidatingWebhookFor env hist _); by repeat constructor.
Qed.

Lemma webhook_step_fail_fast b h :
  fail_fast (outcome (webhook_step env b h)) (calls (webhook_step env b h)).
Proof.
  unfold webhook_step.
  destruct (mgr b) as [m|]; [|constructor].
  destruct (snd (GVKForObject env h _ _)) as [e|] eqn:Hg; simpl.
  - eexists [], _. repeat split. constructor.
  - constructor; [done|]. apply Forall_app. split; apply webhook_calls_nil.
Qed.

Lemma watch_step_fail_fast b h :
  fail_fast (outcome (watch_step env b h)) (calls (watch_step env b h)).
Proof.
  unfold watch_step. destruct (ctrl b) as [c|]; [|constructor].
  apply run_watches_fail_fast.
Qed.

Lemma build_steps_fail_fast r b h :
  fail_fast (outcome (run_steps (build_steps env r) b h))
            (calls (run_steps (build_steps env r) b h)).
Proof.
  apply run_steps_fail_fast. unfold build_steps.
  repeat constructor; intros.
  - apply config_step_fail_fast.
  - apply manager_step_fail_fast.
  - apply controller_step_fail_fast.
  - apply webhook_step_fail_fast.
  - apply watch_step_fail_fast.
Qed.

Lemma run_steps_preserves_after {A : Type} (field : Builder -> A) pre post b h :
  Forall (fun f => forall b h, field (builder (f b h)) = field b) post ->
  field (builder (run_steps (pre ++ post) b h)) = field (builder (run_steps pre b h)).
Proof.
  intros Hpost. rewrite run_steps_app. cbv zeta.
  destruct (outcome (run_steps pre b h)) as [[e|]|]; try done.
  cbn [builder]. by apply run_steps_preserves.
Qed.

Lemma config_step_calls_of t b h :
  calls_of t (calls (config_step env b h)) =
    if step_eqb StConfig t then calls (config_step env b h) else [].
Proof. apply calls_of_tagged, config_step_tagged. Qed.

Lemma manager_step_calls_of t b h :
  calls_of t (calls (manager_step env b h)) =
    if step_eqb StManager t then calls (manager_step env b h) else [].
Proof. apply calls_of_tagged, manager_step_tagged. Qed.

Lemma controller_step_calls_of t r b h :
  calls_of t (calls (controller_step env r b h)) =
    if step_eqb StController t then calls (controller_step env r b h) else [].
Proof. apply calls_of_tagged, controller_step_tagged. Qed.

Lemma webhook_step_calls_of t b h :
  calls_of t (calls (webhook_step env b h)) =
    if step_eqb StWebhook t then calls (webhook_step env b h) else [].
Proof. apply calls_of_tagged, webhook_step_tagged. Qed.

Lemma watch_step_calls_of t b h :
  calls_of t (calls (watch_step env b h)) =
    if step_eqb StWatch t then calls (watch_step env b h) else [].
Proof. apply calls_of_tagged, watch_step_tagged. Qed.

End Runs.

(** The side conditions of [run_steps_calls_of] and [run_steps_preserves]
    on the steps of [Build]: which step makes which calls, and which step
    writes which field. *)
Ltac kinds :=
  repeat constructor; intros;
  rewrite ?config_step_calls_of, ?manager_step_calls_of, ?controller_step_calls_of,
    ?webhook_step_calls_of, ?watch_step_calls_of; reflexivity.

Ltac frame :=
  repeat constructor;
  let b0 := fresh "b" in
  let h0 := fresh "h" in
  intros b0 h0;
  lazymatch goal with
  | |- context [config_step ?e b0 h0] =>
      destruct (config_step_builder e b0 h0) as (? & -> & _)
  | |- context [manager_step ?e b0 h0] =>
      destruct (manager_step_builder e b0 h0) as (? & -> & _)
  | |- context [controller_step ?e ?r b0 h0] =>
      destruct (controller_step_builder e r b0 h0) as (? & ->)
  | |- context [webhook_step ?e b0 h0] => rewrite webhook_step_builder
  | |- context [watch_step ?e b0 h0] => rewrite watch_step_builder
  end;
  reflexivity.

(** ** The setters and the nil reconciler *)

Section Setters.

Context {F : Framework}.
Variable env : Env.

(** C9.  Each setter ([For], [ForType], [Owns], [Watches], [WithConfig],
    [WithManager], [WithEventFilter]) returns the address of the builder it
    was called on and writes its own field only: [For] overwrites the
    reconciled type, [Owns], [Watches] and [WithEventFilter] append one
    element to their list, [WithConfig] and [WithManager] overwrite their
    field; the six other fields, the other builders of the heap and the
    trace are left as they were. *)
Theorem setters_frame (blder : loc) (b : Builder) (st : State) :
  heap st !! blder = Some b ->
  let cell (b' : Builder) : Outcome loc * State :=
    (Done blder, mkState (<[blder := b']> (heap st)) (trace st)) in
  (forall a, For blder a st =
     cell (mkBuilder a (mgr b) (predicates b) (managedObjects b) (watchRequests b)
                     (config b) (ctrl b))) /\
  (forall a, ForType blder a st =
     cell (mkBuilder a (mgr b) (predicates b) (managedObjects b) (watchRequests b)
                     (config b) (ctrl b))) /\
  (forall a, Owns blder a st =
     cell (mkBuilder (apiType b) (mgr b) (predicates b) (managedObjects b ++ [a])
                     (watchRequests b) (config b) (ctrl b))) /\
  (forall s h, Watches blder s h st =
     cell (mkBuilder (apiType b) (mgr b) (predicates b) (managedObjects b)
                     (watchRequests b ++ [mkWatchRequest s h]) (config b) (ctrl b))) /\
  (forall c, WithConfig blder c st =
     cell (mkBuilder (apiType b) (mgr b) (predicates b) (managedObjects b) (watchRequests b)
                     c (ctrl b))) /\
  (forall m, WithManager blder m st =
     cell (mkBuilder (apiType b) m (predicates b) (managedObjects b) (watchRequests b)
                     (config b) (ctrl b))) /\
  (forall p, WithEventFilter blder p st =
     cell (mkBuilder (apiType b) (mgr b) (predicates b ++ [p]) (managedObjects b)
                     (watchRequests b) (config b) (ctrl b))).
Proof.
  intros H cell. subst cell.
  repeat split; intros;
    unfold ForType, For, Owns, Watches, WithConfig, WithManager, WithEventFilter,
      bind, ret, load, update; simpl; by rewrite ?H.
Qed.

(** C6.  With a nil reconciler [Build] (and [Complete]) return the
    missing-reconciler error in the very state they were called in, whatever
    that state and the builder's address are: no field of a builder is
    written and no call is made, so none of the five steps has run. *)
Theorem Build_nil_reconciler (blder : loc) (st : State) :
  Build env blder None st =
    (Done (None, Some (Errorf "must provide a non-nil Reconciler")), st) /\
  Complete env blder None st =
    (Done (Some (Errorf "must provide a non-nil Reconciler")), st) /\
  new_calls st (snd (Build env blder None st)) = [].
Proof.
  repeat split. unfold new_calls. simpl. by rewrite drop_all.
Qed.

End Setters.

(** ** Errors *)

Section Errors.

Context {F : Framework}.
Variable env : Env.

(** C4.  [Build] is fail-fast and hands errors over as they are.  With a
    reconciler: a call to the framework (config discovery, manager
    construction, GVK resolution, controller construction, a [Watch]) that
    answers with an error is the last call [Build] makes, and [Build]
    returns that very error; conversely an error returned by [Build] is the
    answer of the last call made.  Without a reconciler the error is the
    one made by [fmt.Errorf], and no call is made. *)
Theorem Build_fail_fast (blder : loc) (b : Builder) (r : option Reconciler) (st : State) :
  heap st !! blder = Some b ->
  let out := fst (Build env blder r st) in
  let evs := new_calls st (snd (Build env blder r st)) in
  (r = None ->
     out = Done (None, Some (Errorf "must provide a non-nil Reconciler")) /\ evs = []) /\
  (r <> None ->
     (forall pre ev post e,
        evs = pre ++ ev :: post -> ev_err ev = Some e ->
        post = [] /\ out = Done (None, Some e)) /\
     (forall m e,
        out = Done (m, Some e) ->
        m = None /\ exists pre ev, evs = pre ++ [ev] /\ ev_err ev = Some e)).
Proof.
  intros H out evs. split.
  - intros ->. subst out evs. split; [done|].
    unfold new_calls. simpl. by rewrite drop_all.
  - intros Hr. destruct r as [r|]; [clear Hr|done].
    subst out evs. rewrite (Build_eq env blder b) by done. cbv zeta.
    cbn [fst snd]. rewrite new_calls_upd.
    pose proof (build_steps_fail_fast env (Some r) b (trace st)) as Hff.
    set (s := run_steps _ _ _) in *. unfold build_result. split.
    + intros pre ev post e E He.
      destruct (fail_fast_last _ _ _ _ _ _ Hff E He) as [-> Ho].
      by rewrite Ho.
    + intros m e Ho.
      destruct (outcome s) as [[e'|]|] eqn:Hs; try discriminate.
      injection Ho as <- <-. split; [done|].
      by apply fail_fast_error.
Qed.

End Errors.

(** ** The steps inside [Build] *)

Section Resolution.

Context {F : Framework}.
Variable env : Env.

(** The config discovery calls of [Build] are those of its first step,
    and the config it leaves in the builder is the one that step leaves. *)
Lemma Build_config r b h :
  let s := run_steps (build_steps env r) b h in
  calls_of StConfig (calls s) = calls (config_step env b h) /\
  config (builder s) = config (builder (config_step env b h)).
Proof.
  cbv zeta. split.
  - pose proof (run_steps_calls_of StConfig [] (config_step env)
        [manager_step env; controller_step env r; webhook_step env; watch_step env] b h) as E.
    cbn [app] in E. unfold build_steps. rewrite E; [|kinds..].
    simpl. by rewrite app_nil_r.
  - unfold build_steps.
    change [config_step env; manager_step env; controller_step env r; webhook_step env;
            watch_step env]
      with ([config_step env] ++
            [manager_step env; controller_step env r; webhook_step env; watch_step env]).
    rewrite run_steps_preserves_after by frame.
    by destruct (run_steps_one (config_step env) b h) as (_ & -> & _).
Qed.

(** C1.  The config of [Build] is resolved by precedence.  If the builder
    holds a config, it is still there after [Build] and [getConfig] is not
    called.  Otherwise, if it holds a manager, its config becomes the
    manager's ([mgr.GetConfig()]) and [getConfig] is not called.  Otherwise
    [getConfig] is called exactly once, and what it returns becomes the
    builder's config.  The same holds of the step [doConfig] alone, which
    returns nil in the first two cases and the error of [getConfig] in the
    third. *)
Theorem config_precedence (blder : loc) (b : Builder) (r : option Reconciler) (st : State) :
  heap st !! blder = Some b ->
  r <> None ->
  ((forall c, config b = Some c -> doConfig env blder st = (Done None, st)) /\
   (forall m, config b = None -> mgr b = Some m ->
      doConfig env blder st =
        (Done None, mkState (<[blder := set_config (GetConfig m) b]> (heap st)) (trace st))) /\
   (config b = None -> mgr b = None ->
      let a := getConfig env (trace st) in
      doConfig env blder st =
        (Done (snd a),
         mkState (<[blder := set_config (fst a) b]> (heap st))
                 (trace st ++ [EvGetConfig (fst a) (snd a)])))) /\
  let st' := snd (Build env blder r st) in
  let discovery := calls_of StConfig (new_calls st st') in
  exists b', heap st' !! blder = Some b' /\
    (forall c, config b = Some c -> config b' = Some c /\ discovery = []) /\
    (forall m, config b = None -> mgr b = Some m ->
       config b' = GetConfig m /\ discovery = []) /\
    (config b = None -> mgr b = None ->
       config b' = fst (getConfig env (trace st)) /\
       discovery = [EvGetConfig (fst (getConfig env (trace st)))
                                (snd (getConfig env (trace st)))]).
Proof.
  intros H Hr. split.
  { rewrite (doConfig_eq env blder b) by done. unfold step_at, config_step.
    split; [|split].
    - intros c Hcfg. rewrite Hcfg. cbn. by rewrite upd_id.
    - intros m Hcfg Hmgr. rewrite Hcfg, Hmgr. cbn. unfold upd. by rewrite app_nil_r.
    - intros Hcfg Hmgr. by rewrite Hcfg, Hmgr. }
  intros st' discovery. destruct r as [r|]; [clear Hr|done].
  subst st' discovery. rewrite (Build_eq env blder b) by done. cbv zeta. cbn [snd].
  rewrite new_calls_upd.
  destruct (Build_config (Some r) b (trace st)) as [-> Hc].
  eexists. split; [apply upd_lookup|]. rewrite Hc. clear Hc.
  unfold config_step. split; [|split].
  - intros c Hcfg. by rewrite Hcfg.
  - intros m Hcfg Hmgr. by rewrite Hcfg, Hmgr.
  - intros Hcfg Hmgr. by rewrite Hcfg, Hmgr.
Qed.

(** The manager construction calls of [Build] are those of its second
    step, reached when the first one returns nil, and the manager it leaves
    in the builder is the one of that step. *)
Lemma Build_manager r b h :
  let s := run_steps (build_steps env r) b h in
  let s1 := config_step env b h in
  let s2 := manager_step env (builder s1) (h ++ calls s1) in
  calls_of StManager (calls s) =
    match outcome s1 with Done None => calls s2 | _ => [] end /\
  mgr (builder s) =
    match outcome s1 with Done None => mgr (builder s2) | _ => mgr (builder s1) end.
Proof.
  cbv zeta. split.
  - pose proof (run_steps_calls_of StManager [config_step env] (manager_step env)
        [controller_step env r; webhook_step env; watch_step env] b h) as E.
    cbn [app] in E. unfold build_steps. rewrite E; [|kinds..]. cbv zeta.
    by destruct (run_steps_one (config_step env) b h) as (-> & -> & ->).
  - unfold build_steps.
    change [config_step env; manager_step env; controller_step env r; webhook_step env;
            watch_step env]
      with ([config_step env; manager_step env] ++
            [controller_step env r; webhook_step env; watch_step env]).
    rewrite run_steps_preserves_after by frame.
    rewrite run_steps_cons.
    destruct (outcome (config_step env b h)) as [[e|]|]; try done.
    cbv zeta. cbn [builder].
    by destruct (run_steps_one (manager_step env) (builder (config_step env b h))
                   (h ++ calls (config_step env b h))) as (_ & -> & _).
Qed.

(** C7.  If the builder holds a manager, no manager is constructed:
    [doManager] returns nil without a call or a write, and in the whole of
    [Build] [newManager] is not called and the manager stays.  Otherwise
    [doManager] calls [newManager] exactly once, with the builder's config,
    and stores what it returns; in [Build], where that step comes once the
    config step has resolved a config (config discovery answered no error),
    [newManager] is called exactly once, with the config that step left in
    the builder, and what it returns becomes the builder's manager. *)
Theorem manager_once (blder : loc) (b : Builder) (r : option Reconciler) (st : State) :
  heap st !! blder = Some b ->
  ((forall m, mgr b = Some m -> doManager env blder st = (Done None, st)) /\
   (mgr b = None ->
      let a := newManager env (trace st) (config b) in
      doManager env blder st =
        (Done (snd a),
         mkState (<[blder := set_mgr (fst a) b]> (heap st))
                 (trace st ++ [EvNewManager (config b) (fst a) (snd a)])))) /\
  let st' := snd (Build env blder r st) in
  let evs := new_calls st st' in
  exists b', heap st' !! blder = Some b' /\
    (forall m, mgr b = Some m -> calls_of StManager evs = [] /\ mgr b' = Some m) /\
    (mgr b = None -> r <> None -> all_nil (calls_of StConfig evs) ->
       let a := newManager env (trace st ++ calls_of StConfig evs) (config b') in
       calls_of StManager evs = [EvNewManager (config b') (fst a) (snd a)] /\
       mgr b' = fst a).
Proof.
  intros H. split.
  { rewrite (doManager_eq env blder b) by done. unfold step_at, manager_step. split.
    - intros m Hb. rewrite Hb. cbn. by rewrite upd_id.
    - intros Hb. by rewrite Hb. }
  intros st' evs. destruct r as [r|].
  2:{ exists b. subst st' evs. unfold new_calls. cbn. rewrite drop_all.
      split; [done|]. by split. }
  subst st' evs. rewrite (Build_eq env blder b) by done. cbv zeta. cbn [snd].
  rewrite new_calls_upd.
  destruct (Build_config (Some r) b (trace st)) as [-> Hc].
  destruct (Build_manager (Some r) b (trace st)) as [-> Hm].
  eexists. split; [apply upd_lookup|]. rewrite Hc, Hm. clear Hc Hm.
  unfold config_step, manager_step. split.
  - intros m Hb. rewrite Hb.
    destruct (config b); simpl; by rewrite Hb.
  - intros Hb _. rewrite Hb.
    destruct (config b) as [c|] eqn:Hcfg; simpl; rewrite ?Hb; simpl.
    + intros _. by rewrite app_nil_r, Hcfg.
    + intros Hnil. apply Forall_inv in Hnil. simpl in Hnil. by rewrite Hnil.
Qed.

End Resolution.

(** ** The controller *)

Section Naming.

Context {F : Framework}.
Variable env : Env.

Lemma In_calls_of t ev evs : In ev evs -> step_of ev = t -> In ev (calls_of t evs).
Proof.
  intros Hin Ht. unfold calls_of. apply List.filter_In. split; [done|].
  rewrite Ht. by destruct t.
Qed.

(** The controller calls of [Build] are those of its third step, run on a
    builder that has the reconciled type of the first one. *)
Lemma Build_controller r b h :
  let s := run_steps (build_steps env r) b h in
  let sp := run_steps [config_step env; manager_step env] b h in
  apiType (builder sp) = apiType b /\
  calls_of StController (calls s) =
    match outcome sp with
    | Done None => calls (controller_step env r (builder sp) (h ++ calls sp))
    | _ => []
    end.
Proof.
  cbv zeta. split.
  - apply (run_steps_preserves apiType). frame.
  - pose proof (run_steps_calls_of StController [config_step env; manager_step env]
        (controller_step env r) [webhook_step env; watch_step env] b h) as E.
    cbn [app] in E. unfold build_steps. by rewrite E; [|kinds..].
Qed.


End Naming.

(** ** The watches *)

Section Watching.

Context {F : Framework}.
Variable env : Env.

Lemma run_steps_ok_app pre post b h :
  outcome (run_steps (pre ++ post) b h) = Done None ->
  outcome (run_steps pre b h) = Done None /\
  outcome (run_steps post (builder (run_steps pre b h)) (h ++ calls (run_steps pre b h)))
    = Done None.
Proof.
  rewrite run_steps_app. cbv zeta.
  by destruct (outcome (run_steps pre b h)) as [[e|]|] eqn:Ho; rewrite ?Ho.
Qed.

(** When no [Watch] fails, all the planned ones are made, in order. *)
Lemma run_watches_ok c prct plan hist :
  snd (run_watches env c prct plan hist) = None ->
  fst (run_watches env c prct plan hist) =
    map (fun p => EvWatch c (fst p) (snd p) prct None) plan.
Proof.
  revert hist. induction plan as [|[s h] plan IH]; intros hist; simpl; [done|].
  destruct (Watch env hist c s h prct) as [e|]; simpl; [done|].
  intros Hok. by rewrite IH.
Qed.

(** A controller step that returns nil has resolved the type and has put
    the controller that [newController] returned in the builder. *)
Lemma controller_step_ok r b h :
  outcome (controller_step env r b h) = Done None ->
  exists sch gvk name m,
    calls (controller_step env r b h) =
      [EvGetGvk (apiType b) sch gvk None;
       EvNewController name m r (ctrl (builder (controller_step env r b h))) None].
Proof.
  unfold controller_step. destruct (mgr b) as [m|]; [|done].
  destruct (snd (getGvk env _ _ _)) as [e|] eqn:Hg; simpl; [done|].
  intros Hok. injection Hok as Hok. rewrite Hok. by eexists _, _, _, _.
Qed.

(** The [Watch] calls of a [Build] whose steps all return nil. *)
Lemma Build_watch r b h :
  let s := run_steps (build_steps env r) b h in
  outcome s = Done None ->
  exists c sch gvk name m,
    calls_of StController (calls s) =
      [EvGetGvk (apiType b) sch gvk None; EvNewController name m r (Some c) None] /\
    ctrl (builder s) = Some c /\
    calls_of StWatch (calls s) =
      map (fun p => EvWatch c (fst p) (snd p) (predicates b) None) (watch_plan b).
Proof.
  cbv zeta. intros Hok.
  (* the steps before the controller, the controller, the webhooks *)
  pose proof (run_steps_ok_app [config_step env; manager_step env]
                [controller_step env r; webhook_step env; watch_step env] b h Hok) as [Hok2 Hok3].
  destruct (Build_controller env r b h) as [Ha Hc]. cbv zeta in Ha, Hc.
  rewrite Hok2 in Hc. unfold build_steps in *.
  set (s2 := run_steps [config_step env; manager_step env] b h) in *.
  rewrite run_steps_cons in Hok3.
  set (s3 := controller_step env r (builder s2) (h ++ calls s2)) in *.
  destruct (outcome s3) as [[e|]|] eqn:Ho3; try congruence.
  destruct (controller_step_ok r _ _ Ho3) as (sch & gvk & name & m & Hcalls).
  fold s3 in Hcalls. rewrite Ha in Hcalls.
  (* the watch step *)
  pose proof (run_steps_ok_app
                [config_step env; manager_step env; controller_step env r; webhook_step env]
                [watch_step env] b h Hok) as [Hok4 Hok5].
  pose proof (run_steps_calls_of StWatch
                [config_step env; manager_step env; controller_step env r; webhook_step env]
                (watch_step env) [] b h) as Hw.
  cbn [app] in Hw. rewrite Hw; [|kinds..]. clear Hw.
  cbv zeta. rewrite Hok4.
  set (s4 := run_steps [config_step env; manager_step env; controller_step env r;
                        webhook_step env] b h) in *.
  assert (ctrl (builder s4) = ctrl (builder s3)) as Hctrl.
  { subst s4.
    change [config_step env; manager_step env; controller_step env r; webhook_step env]
      with ([config_step env; manager_step env; controller_step env r] ++ [webhook_step env]).
    rewrite run_steps_preserves_after by frame.
    change [config_step env; manager_step env; controller_step env r]
      with ([config_step env; manager_step env] ++ [controller_step env r]).
    rewrite run_steps_app. cbv zeta. fold s2. rewrite Hok2. cbn [builder].
    by destruct (run_steps_one (controller_step env r) (builder s2) (h ++ calls s2))
      as (_ & -> & _). }
  assert (apiType (builder s4) = apiType b /\ predicates (builder s4) = predicates b /\
          managedObjects (builder s4) = managedObjects b /\
          watchRequests (builder s4) = watchRequests b) as (Hf1 & Hf2 & Hf3 & Hf4).
  { subst s4. repeat split.
    - apply (run_steps_preserves apiType). frame.
    - apply (run_steps_preserves predicates). frame.
    - apply (run_steps_preserves managedObjects). frame.
    - apply (run_steps_preserves watchRequests). frame. }
  assert (ctrl (builder (run_steps [config_step env; manager_step env; controller_step env r;
                                    webhook_step env; watch_step env] b h))
          = ctrl (builder s4)) as Hlast.
  { change [config_step env; manager_step env; controller_step env r; webhook_step env;
            watch_step env]
      with ([config_step env; manager_step env; controller_step env r; webhook_step env] ++
            [watch_step env]).
    by rewrite run_steps_preserves_after by frame. }
  rewrite Hlast. clear Hlast.
  destruct (run_steps_one (watch_step env) (builder s4) (h ++ calls s4)) as (Ho5 & _ & _).
  rewrite Ho5 in Hok5. clear Ho5.
  unfold watch_step in *. rewrite Hctrl in *.
  destruct (ctrl (builder s3)) as [c|] eqn:Hc3; [|done].
  cbn [outcome calls] in *. injection Hok5 as Hok5.
  exists c, sch, gvk, name, m. split; [by rewrite Hc, Hcalls|]. split.
  - done.
  - rewrite run_watches_ok by done.
    unfold watch_plan. by rewrite Hf1, Hf2, Hf3, Hf4.
Qed.

(** C3, owned types counted with repetition.  When [Build] succeeds, the controller that
    [newController] returned has been asked to [Watch] exactly
    1 + (number of [Owns] calls) + (number of [Watches] calls) times, an
    owned type added twice being watched twice: first the reconciled type
    with the enqueue-for-this-object handler, then each owned type, in the
    order of the [Owns] calls, with the handler that enqueues the
    controller-owner of the reconciled type, then each free-form request in
    the order of the [Watches] calls; every call gets the whole list of
    event filters. *)
Theorem watches_registered (blder : loc) (b : Builder) (r : option Reconciler) (st : State)
    (m : option Manager) :
  heap st !! blder = Some b ->
  fst (Build env blder r st) = Done (m, None) ->
  let st' := snd (Build env blder r st) in
  let evs := new_calls st st' in
  exists c,
    (exists sch gvk name mm,
       calls_of StController evs =
         [EvGetGvk (apiType b) sch gvk None; EvNewController name mm r (Some c) None]) /\
    calls_of StWatch evs =
      EvWatch c (SourceKind (apiType b)) EnqueueRequestForObject (predicates b) None
      :: map (fun obj => EvWatch c (SourceKind obj) (EnqueueRequestForOwner (apiType b) true)
                                 (predicates b) None) (managedObjects b)
      ++ map (fun w => EvWatch c (src w) (eventhandler w) (predicates b) None)
             (watchRequests b) /\
    length (calls_of StWatch evs) =
      1 + length (managedObjects b) + length (watchRequests b).
Proof.
  intros H Hok st' evs. destruct r as [r|]; [|done].
  subst st' evs. rewrite (Build_eq env blder b) in Hok |- * by done.
  cbv zeta in *. cbn [fst snd] in *. rewrite new_calls_upd.
  assert (outcome (run_steps (build_steps env (Some r)) b (trace st)) = Done None) as Ho.
  { unfold build_result in Hok. by destruct (outcome _) as [[e|]|]. }
  destruct (Build_watch (Some r) b (trace st) Ho) as (c & sch & gvk & name & mm & Hc & _ & Hw).
  exists c. split; [by eexists _, _, _, _|].
  rewrite Hw. unfold watch_plan. cbn [map fst snd].
  rewrite map_app, !map_map. split; [done|].
  cbn [length]. rewrite length_app, !length_map. lia.
Qed.

End Watching.

(** ** The webhooks *)

Section Webhooks.

Context {F : Framework}.
Variable env : Env.



Lemma registrations_app l1 l2 :
  registrations (l1 ++ l2) = registrations l1 ++ registrations l2.
Proof. unfold registrations. apply flat_map_app. Qed.

(** Only the webhook step registers webhooks. *)
Lemma registrations_calls_of evs :
  registrations (calls_of StWebhook evs) = registrations evs.
Proof.
  induction evs as [|e evs IH]; [done|].
  destruct e; simpl; by rewrite ?IH.
Qed.

Lemma In_calls_of_inv t ev evs : In ev (calls_of t evs) -> In ev evs.
Proof. unfold calls_of. intros Hin. by apply List.filter_In in Hin as [? _]. Qed.

(** The webhook calls of [Build] are those of its fourth step, run on a
    builder that has the reconciled type of the first one. *)
Lemma Build_webhook r b h :
  let s := run_steps (build_steps env r) b h in
  let sp := run_steps [config_step env; manager_step env; controller_step env r] b h in
  apiType (builder sp) = apiType b /\
  calls_of StWebhook (calls s) =
    match outcome sp with
    | Done None => calls (webhook_step env (builder sp) (h ++ calls sp))
    | _ => []
    end.
Proof.
  cbv zeta. split.
  - apply (run_steps_preserves apiType). frame.
  - pose proof (run_steps_calls_of StWebhook
        [config_step env; manager_step env; controller_step env r]
        (webhook_step env) [watch_step env] b h) as E.
    cbn [app] in E. unfold build_steps. by rewrite E; [|kinds..].
Qed.

Lemma webhook_halves_no_gvk hist hist' apiType m gvk obj sch gvk' err :
  ~ In (EvGVKForObject obj sch gvk' err)
       (mutating_calls env hist apiType m gvk ++ validating_calls env hist' apiType m gvk).
Proof.
  intros Hin. apply in_app_or in Hin as [Hin|Hin].
  - unfold mutating_calls in Hin. destruct (asDefaulter apiType); [|done].
    destruct (DefaultingWebhookFor env hist _); simpl in Hin; destruct_or?; by simplify_eq.
  - unfold validating_calls in Hin. destruct (asValidator apiType); [|done].
    destruct (ValidatingWebhookFor env _ _); simpl in Hin; destruct_or?; by simplify_eq.
Qed.

Lemma prefix_paths (x : string) :
  String.prefix "/mutate-" ("/mutate-" ++ x) = true /\
  String.prefix "/validate-" ("/validate-" ++ x) = true /\
  String.prefix "/mutate-" ("/validate-" ++ x) = false /\
  String.prefix "/validate-" ("/mutate-" ++ x) = false.
Proof. repeat split; try reflexivity; by destruct x. Qed.

(** C10.  In the webhook step, when [DefaultingWebhookFor] returns a nil
    handler for a type that implements [admission.Defaulter], nothing is
    registered under a "/mutate-" path and the step returns nil all the
    same; likewise for [ValidatingWebhookFor] and "/validate-".  Every
    registration is the registration of a non-nil handler that one of the
    two constructors has just returned. *)
Theorem nil_webhook_skipped (blder : loc) (b : Builder) (st : State) :
  heap st !! blder = Some b ->
  let out := fst (doWebhook env blder st) in
  let evs := new_calls st (snd (doWebhook env blder st)) in
  (forall d, In (EvDefaultingWebhookFor d None) evs ->
     asDefaulter (apiType b) = Some d /\ out = Done None /\
     forall srv path hook,
       In (EvRegister srv path hook) evs -> String.prefix "/mutate-" path = false) /\
  (forall v, In (EvValidatingWebhookFor v None) evs ->
     asValidator (apiType b) = Some v /\ out = Done None /\
     forall srv path hook,
       In (EvRegister srv path hook) evs -> String.prefix "/validate-" path = false) /\
  (forall srv path hook, In (EvRegister srv path hook) evs ->
     (String.prefix "/mutate-" path = true /\
      exists d, In (EvDefaultingWebhookFor d (Some hook)) evs) \/
     (String.prefix "/validate-" path = true /\
      exists v, In (EvValidatingWebhookFor v (Some hook)) evs)).
Proof.
  intros H out evs. subst out evs.
  rewrite (doWebhook_eq env blder b) by done. unfold step_at. cbn [fst snd].
  rewrite new_calls_upd. unfold webhook_step.
  destruct (mgr b) as [m|]; [|by repeat split].
  destruct (snd (GVKForObject env _ _ _)) as [e|]; cbn [notNil outcome calls].
  { repeat split; intros; simpl in *; destruct_or?; by simplify_eq. }
  unfold mutating_calls, validating_calls.
  destruct (asDefaulter (apiType b)) as [d|];
    [destruct (DefaultingWebhookFor env _ d) as [mwh|]|];
    (destruct (asValidator (apiType b)) as [v|];
      [destruct (ValidatingWebhookFor env _ v) as [vwh|]|]);
    simpl; repeat split; intros; destruct_or?; simplify_eq; try done;
    try apply prefix_paths;
    try (by left; split; [apply prefix_paths|eexists; eauto 10]);
    try (by right; split; [apply prefix_paths|eexists; eauto 10]).
Qed.


(** C5, as the code has it.  In the webhook step a GVK-resolution error is
    not ignored: the step returns it at once, having made no other call (no
    webhook is constructed or registered), and [Build] returns that error. *)
Theorem webhook_gvk_error (blder : loc) (b : Builder) (st : State) :
  heap st !! blder = Some b ->
  forall obj sch gvk e,
    (In (EvGVKForObject obj sch gvk (Some e)) (new_calls st (snd (doWebhook env blder st))) ->
       fst (doWebhook env blder st) = Done (Some e) /\
       new_calls st (snd (doWebhook env blder st)) = [EvGVKForObject obj sch gvk (Some e)]) /\
    (forall r,
       In (EvGVKForObject obj sch gvk (Some e)) (new_calls st (snd (Build env blder r st))) ->
       fst (Build env blder r st) = Done (None, Some e) /\
       calls_of StWebhook (new_calls st (snd (Build env blder r st))) =
         [EvGVKForObject obj sch gvk (Some e)]).
Proof.
  intros H obj sch gvk e. split.
  - rewrite (doWebhook_eq env blder b) by done. unfold step_at. cbn [fst snd].
    rewrite new_calls_upd. unfold webhook_step.
    destruct (mgr b) as [m|]; [|done].
    destruct (GVKForObject env _ _ _) as [gvk' [e'|]]; cbn [fst snd notNil outcome calls].
    + intros [Hin|[]]. by injection Hin as <- <- <- <-.
    + cbn [app]. intros [Hin|Hin]; [discriminate|].
      by apply webhook_halves_no_gvk in Hin.
  - intros r Hin. destruct r as [r|].
    2:{ unfold new_calls in Hin. simpl in Hin. by rewrite drop_all in Hin. }
    rewrite (Build_eq env blder b) in Hin |- * by done.
    cbv zeta in *. cbn [fst snd] in *. rewrite new_calls_upd in *.
    pose proof (build_steps_fail_fast env (Some r) b (trace st)) as Hff.
    destruct (Build_webhook (Some r) b (trace st)) as [Ha E]. cbv zeta in Ha, E.
    set (s := run_steps (build_steps env (Some r)) b (trace st)) in *.
    split.
    + apply in_split in Hin as (pre & post & Hs).
      destruct (fail_fast_last _ _ _ _ _ e Hff Hs) as [_ Ho]; [done|].
      unfold build_result. by rewrite Ho.
    + apply (In_calls_of StWebhook) in Hin; [|done]. rewrite E in Hin |- *.
      destruct (outcome (run_steps _ b (trace st))) as [[e'|]|]; try done.
      unfold webhook_step in *.
      destruct (mgr (builder _)) as [m|]; [|done].
      destruct (GVKForObject env _ _ _) as [gvk' [e'|]]; cbn [fst snd notNil calls] in *.
      * destruct Hin as [Hin|[]]. by rewrite Hin.
      * cbn [app] in Hin. destruct Hin as [Hin|Hin]; [discriminate|].
        by apply webhook_halves_no_gvk in Hin.
Qed.

End Webhooks.

(** ** The properties on the mocks *)

Section Scenarios.

Import Demo.
#[local] Existing Instance framework.

(** C1 on [SimpleController().For(Widget)]: the config is discovered, once. *)
Lemma config_precedence_witness :
  exists b',
    heap (snd (Build env 1%positive (Some "r") stateWidget)) !! 1%positive = Some b' /\
    config b' = Some "ambient config" /\
    calls_of StConfig (new_calls stateWidget (snd (Build env 1%positive (Some "r") stateWidget)))
      = [EvGetConfig (Some "ambient config") None].
Proof.
  destruct (config_precedence env 1%positive builderWidget (Some "r") stateWidget)
    as (_ & b' & Hb & _ & _ & H3).
  - reflexivity.
  - discriminate.
  - exists b'. split; [exact Hb|]. apply H3; reflexivity.
Defined.

(** When no config is discovered, [Build] stops there: no manager is
    constructed although none was set. *)
Example no_config_no_manager :
  Build envNoConfig 1%positive (Some "r") stateWidget =
    (Done (None, Some (External "could not locate a kubeconfig")),
     mkState (heap stateWidget)
             [EvGetConfig None (Some (External "could not locate a kubeconfig"))]).
Proof. vm_compute. reflexivity. Qed.

(** C7 on the same builder: one manager is constructed, from that config. *)
Lemma manager_once_witness :
  exists b',
    heap (snd (Build env 1%positive (Some "r") stateWidget)) !! 1%positive = Some b' /\
    mgr b' = Some "new manager" /\
    calls_of StManager (new_calls stateWidget (snd (Build env 1%positive (Some "r") stateWidget)))
      = [EvNewManager (Some "ambient config") (Some "new manager") None].
Proof.
  destruct (manager_once env 1%positive builderWidget (Some "r") stateWidget)
    as (_ & b' & Hb & _ & H2).
  - reflexivity.
  - exists b'. split; [exact Hb|].
    destruct H2 as [Hcalls Hm];
      [reflexivity|discriminate|vm_compute; by repeat constructor|].
    vm_compute in Hb. injection Hb as <-.
    split; [exact Hm|exact Hcalls].
Defined.



(** C3 on [For(Foo).Owns(Pod).Owns(Pod)]: three watches. *)
Lemma watches_registered_witness :
  length (calls_of StWatch
            (new_calls stateTwice (snd (Build env 1%positive (Some "r") stateTwice)))) = 3.
Proof.
  destruct (watches_registered env 1%positive builderTwice (Some "r") stateTwice (Some "mgr"))
    as (c & _ & _ & Hlen).
  - reflexivity.
  - reflexivity.
  - exact Hlen.
Defined.

(** The count of C3 with distinct owned types does not hold: a type owned
    twice is one distinct owned type, and it is watched twice. *)
Lemma watch_count_counterexample :
  fst (Build env 1%positive (Some "r") stateTwice) = Done (Some "mgr", None) /\
  heap stateTwice !! 1%positive = Some builderTwice /\
  length (calls_of StWatch
            (new_calls stateTwice (snd (Build env 1%positive (Some "r") stateTwice))))
    <> 1 + distinct_owned builderTwice + length (watchRequests builderTwice).
Proof.
  split; [reflexivity|]. split; [reflexivity|]. vm_compute. discriminate.
Defined.

(** C4 on [For(Foo).Owns(Secret).Owns(Pod)]: the watch of Secret is
    refused, that error is returned and Pod is not watched. *)
Lemma Build_fail_fast_witness :
  fst (Build env 1%positive (Some "r") stateSecret) =
    Done (None, Some (External "secrets are not watched")).
Proof.
  destruct (Build_fail_fast env 1%positive builderSecret (Some "r") stateSecret) as [_ H2].
  - reflexivity.
  - destruct H2 as [Hlast _]; [discriminate|].
    refine (proj2 (Hlast
      (firstn 10 (new_calls stateSecret (snd (Build env 1%positive (Some "r") stateSecret))))
      (EvWatch "controller foo-application" (SourceKind (Some "Secret"))
               (EnqueueRequestForOwner (Some "Foo") true) []
               (Some (External "secrets are not watched")))
      [] (External "secrets are not watched") _ _)).
    + vm_compute. reflexivity.
    + reflexivity.
Defined.

(** C5 with [apiutil.GVKForObject] failing after a mocked [getGvk]. *)
Lemma webhook_gvk_error_witness :
  fst (doWebhook envMockedGvk 1%positive (beforeWebhook envMockedGvk)) =
    Done (Some (External "no kind is registered for the type")) /\
  fst (Build envMockedGvk 1%positive (Some "r") stateFoo) =
    Done (None, Some (External "no kind is registered for the type")).
Proof.
  split.
  - refine (proj1 (proj1 (webhook_gvk_error envMockedGvk 1%positive
              (builderResolved "controller mock-application") (beforeWebhook envMockedGvk) _
              (Some "Foo") tt (mkGVK "" "" "") (External "no kind is registered for the type"))
              _)).
    + reflexivity.
    + vm_compute. eauto.
  - refine (proj1 (proj2 (webhook_gvk_error envMockedGvk 1%positive builderFoo stateFoo _
              (Some "Foo") tt (mkGVK "" "" "") (External "no kind is registered for the type"))
              (Some "r") _)).
    + reflexivity.
    + vm_compute. eauto 10.
Defined.

(** The swallowed error of C5 does not happen: here GVK resolution fails
    in the webhook step, the step returns that error, not nil, and [Build]
    does not succeed. *)
Lemma webhook_gvk_error_counterexample :
  In (EvGVKForObject (Some "Foo") tt (mkGVK "" "" "")
        (Some (External "no kind is registered for the type")))
     (new_calls (beforeWebhook envMockedGvk)
        (snd (doWebhook envMockedGvk 1%positive (beforeWebhook envMockedGvk)))) /\
  fst (doWebhook envMockedGvk 1%positive (beforeWebhook envMockedGvk)) <> Done None /\
  (forall m, fst (Build envMockedGvk 1%positive (Some "r") stateFoo) <> Done (m, None)).
Proof.
  split; [vm_compute; eauto|]. split; [vm_compute; discriminate|].
  intros m. vm_compute. discriminate.
Defined.

(** C9 on [Owns(ConfigMap)] after [chainFoo]. *)
Lemma setters_frame_witness :
  Owns 1%positive (Some "ConfigMap") stateFoo =
    (Done 1%positive,
     mkState (<[1%positive :=
                  mkBuilder (Some "Foo") (Some "mgr") ["generation changed"]
                    [Some "Pod"; Some "ConfigMap"]
                    [mkWatchRequest (SourceOther "channel") (HandlerOther "enqueue mapped")]
                    None None]> (heap stateFoo))
             (trace stateFoo)).
Proof.
  destruct (setters_frame 1%positive builderFoo stateFoo) as (_ & _ & HOwns & _).
  - reflexivity.
  - exact (HOwns (Some "ConfigMap")).
Defined.

(** C10 with webhook constructors that return nil. *)
Lemma nil_webhook_skipped_witness :
  asDefaulter (apiType (builderResolved "controller foo-application")) = Some "Foo" /\
  fst (doWebhook envNoWebhook 1%positive (beforeWebhook envNoWebhook)) = Done None /\
  registrations (new_calls (beforeWebhook envNoWebhook)
                   (snd (doWebhook envNoWebhook 1%positive (beforeWebhook envNoWebhook)))) = [].
Proof.
  destruct (nil_webhook_skipped envNoWebhook 1%positive
              (builderResolved "controller foo-application") (beforeWebhook envNoWebhook))
    as (Hd & _ & _).
  - reflexivity.
  - destruct (Hd "Foo") as (Ha & Ho & _).
    + vm_compute. eauto.
    + split; [exact Ha|]. split; [exact Ho|]. reflexivity.
Defined.

End Scenarios.

(** ** Allocation, nil receivers and fluent chains *)

Section Builders.

Context {F : Framework}.
Variable env : Env.

(** X1.  [SimpleController] returns the address of a new builder: the
    address held no builder before, it now holds the zero builder, every
    builder that was in the heap is still there, under an address other
    than the new one, and no call is made. *)
Theorem SimpleController_fresh (st : State) :
  exists blder,
    SimpleController st =
      (Done blder, mkState (<[blder := zeroBuilder]> (heap st)) (trace st)) /\
    heap st !! blder = None /\
    forall l b, heap st !! l = Some b ->
      l <> blder /\ heap (snd (SimpleController st)) !! l = Some b.
Proof.
  unfold SimpleController. cbn.
  set (blder := fresh (dom (heap st))).
  assert (heap st !! blder = None) as Hnew.
  { apply not_elem_of_dom. apply is_fresh. }
  exists blder. split; [done|]. split; [done|].
  intros l b Hl. assert (l <> blder) as Hne by congruence.
  split; [done|]. by rewrite lookup_insert_ne.
Qed.

(** X2.  On a nil or dangling builder every setter panics, and so do
    [Build] and [Complete] when the reconciler is not nil; nothing is
    written and no call is made. *)
Theorem nil_builder_panics (blder : loc) (r : Reconciler) (st : State) :
  heap st !! blder = None ->
  (forall a, For blder a st = (Panic, st)) /\
  (forall a, ForType blder a st = (Panic, st)) /\
  (forall a, Owns blder a st = (Panic, st)) /\
  (forall s h, Watches blder s h st = (Panic, st)) /\
  (forall c, WithConfig blder c st = (Panic, st)) /\
  (forall m, WithManager blder m st = (Panic, st)) /\
  (forall p, WithEventFilter blder p st = (Panic, st)) /\
  Build env blder (Some r) st = (Panic, st) /\
  Complete env blder (Some r) st = (Panic, st).
Proof.
  intros H.
  repeat split; intros;
    unfold Complete, Build, doConfig, ForType, For, Owns, Watches, WithConfig, WithManager,
      WithEventFilter, bind, ret, load, update; cbn; by rewrite ?H.
Qed.

Lemma chain_builder (blder : loc) (cs : list Setter) :
  forall (b : Builder) (st : State),
  heap st !! blder = Some b ->
  chain blder cs st =
    (Done blder,
     mkState (<[blder := mkBuilder (chained_apiType cs (apiType b))
                                   (chained_mgr cs (mgr b))
                                   (predicates b ++ chained_filters cs)
                                   (managedObjects b ++ chained_owned cs)
                                   (watchRequests b ++ chained_watches cs)
                                   (chained_config cs (config b))
                                   (ctrl b)]> (heap st))
             (trace st)).
Proof.
  induction cs as [|c cs IH]; intros b st H.
  - cbn. unfold ret. rewrite !app_nil_r.
    destruct b, st; cbn in *. by rewrite insert_id.
  - cbn [chain]. unfold bind.
    assert (exists b', call_setter blder c st =
              (Done blder, mkState (<[blder := b']> (heap st)) (trace st)) /\
            chained_apiType (c :: cs) (apiType b) = chained_apiType cs (apiType b') /\
            chained_mgr (c :: cs) (mgr b) = chained_mgr cs (mgr b') /\
            chained_config (c :: cs) (config b) = chained_config cs (config b') /\
            predicates b ++ chained_filters (c :: cs) = predicates b' ++ chained_filters cs /\
            managedObjects b ++ chained_owned (c :: cs) = managedObjects b' ++ chained_owned cs /\
            watchRequests b ++ chained_watches (c :: cs) =
              watchRequests b' ++ chained_watches cs /\
            ctrl b = ctrl b') as (b' & -> & E1 & E2 & E3 & E4 & E5 & E6 & E7).
    { destruct c; eexists; (split;
        [unfold call_setter, ForType, For, Owns, Watches, WithConfig, WithManager,
           WithEventFilter, bind, ret, load, update; cbn; rewrite ?H; reflexivity|]);
        cbn; rewrite <- ?app_assoc; done. }
    rewrite (IH b') by apply lookup_insert_eq. cbn [heap trace].
    by rewrite insert_insert_eq, E1, E2, E3, E4, E5, E6, E7.
Qed.

(** X3.  A fluent chain of setters on a builder returns that builder, makes
    no call, and leaves in it: as reconciled type, config and manager the
    last value given by [For]/[ForType], [WithConfig], [WithManager] (the
    former value when the chain has no such call); as owned types, watch
    requests and event filters the former ones followed by those given, in
    the order of the calls; the controller as it was.  So calls that write
    different fields may be chained in any order. *)
Theorem chain_fields (blder : loc) (cs : list Setter) (b : Builder) (st : State) :
  heap st !! blder = Some b ->
  exists b',
    chain blder cs st = (Done blder, mkState (<[blder := b']> (heap st)) (trace st)) /\
    apiType b' = chained_apiType cs (apiType b) /\
    mgr b' = chained_mgr cs (mgr b) /\
    config b' = chained_config cs (config b) /\
    managedObjects b' = managedObjects b ++ chained_owned cs /\
    watchRequests b' = watchRequests b ++ chained_watches cs /\
    predicates b' = predicates b ++ chained_filters cs /\
    ctrl b' = ctrl b.
Proof.
  intros H. eexists. split; [by apply chain_builder|]. by repeat split.
Qed.

End Builders.

(** ** What [Build] keeps, and in which order it calls *)

Section Invariants.

Context {F : Framework}.
Variable env : Env.

(** X4.  [Build] writes the config, the manager and the controller of its
    builder and nothing else: whatever it returns, the reconciled type, the
    event filters, the owned types and the watch requests are as before,
    the other builders of the heap are untouched, and the trace has only
    grown. *)
Theorem Build_frame (blder : loc) (b : Builder) (r : option Reconciler) (st : State) :
  heap st !! blder = Some b ->
  let st' := snd (Build env blder r st) in
  exists b',
    heap st' = <[blder := b']> (heap st) /\
    trace st' = trace st ++ new_calls st st' /\
    apiType b' = apiType b /\
    predicates b' = predicates b /\
    managedObjects b' = managedObjects b /\
    watchRequests b' = watchRequests b.
Proof.
  intros H st'. destruct r as [r|].
  - subst st'. rewrite (Build_eq env blder b) by done. cbv zeta. cbn [snd].
    rewrite new_calls_upd. eexists. split; [reflexivity|]. split; [reflexivity|].
    unfold build_steps. repeat split.
    + apply (run_steps_preserves apiType). frame.
    + apply (run_steps_preserves predicates). frame.
    + apply (run_steps_preserves managedObjects). frame.
    + apply (run_steps_preserves watchRequests). frame.
  - exists b. subst st'. unfold new_calls. cbn. rewrite drop_all, app_nil_r.
    by rewrite insert_id.
Qed.

Lemma concat_nils {A B : Type} (l : list B) :
  concat (map (fun _ => @nil A) l) = [].
Proof. induction l; [done|]. by cbn. Qed.

(** The calls of a sequence of steps are the calls of each step, one
    segment after the other (an empty one for a step that is not reached). *)
Lemma run_steps_segments tags steps :
  Forall2 (fun t f => forall b h, tagged t (calls (f b h))) tags steps ->
  forall b h, exists segs,
    Forall2 tagged tags segs /\ calls (run_steps steps b h) = concat segs.
Proof.
  induction 1 as [|t f tags steps Hf Hrest IH]; intros b h.
  - exists []. by split.
  - rewrite run_steps_cons.
    assert (exists segs, Forall2 tagged tags segs /\ concat segs = @nil Event)
      as (nils & Hnils & Hcat).
    { exists (map (fun _ => []) tags). split; [|apply concat_nils].
      clear. induction tags; constructor; [constructor|done]. }
    destruct (outcome (f b h)) as [[e|]|].
    + exists (calls (f b h) :: nils). split; [by constructor|].
      cbn. by rewrite Hcat, app_nil_r.
    + destruct (IH (builder (f b h)) (h ++ calls (f b h))) as (segs & Hsegs & E).
      exists (calls (f b h) :: segs). split; [by constructor|].
      cbn. by rewrite E.
    + exists (calls (f b h) :: nils). split; [by constructor|].
      cbn. by rewrite Hcat, app_nil_r.
Qed.

(** X5.  The calls of [Build] come in the order of its steps: config
    discovery first, then manager construction, then the GVK resolution and
    the controller construction, then the webhook calls, then the watches;
    no call of a step is made after a call of a later step. *)
Theorem Build_call_order (blder : loc) (b : Builder) (r : option Reconciler) (st : State) :
  heap st !! blder = Some b ->
  let evs := new_calls st (snd (Build env blder r st)) in
  evs = calls_of StConfig evs ++ calls_of StManager evs ++ calls_of StController evs ++
        calls_of StWebhook evs ++ calls_of StWatch evs.
Proof.
  intros H evs. destruct r as [r|].
  2:{ subst evs. unfold new_calls. cbn. by rewrite drop_all. }
  subst evs. rewrite (Build_eq env blder b) by done. cbv zeta. cbn [snd].
  rewrite new_calls_upd.
  destruct (run_steps_segments [StConfig; StManager; StController; StWebhook; StWatch]
              (build_steps env (Some r))) with (b := b) (h := trace st)
    as (segs & Hsegs & ->).
  { unfold build_steps. repeat constructor; intros.
    - apply config_step_tagged.
    - apply manager_step_tagged.
    - apply controller_step_tagged.
    - apply webhook_step_tagged.
    - apply watch_step_tagged. }
  repeat match goal with
         | Hs : Forall2 _ (_ :: _) _ |- _ =>
             apply Forall2_cons_inv_l in Hs as (? & ? & ? & Hs & ->)
         | Hs : Forall2 _ [] _ |- _ => apply Forall2_nil_inv_l in Hs as ->
         end.
  cbn [concat]. rewrite app_nil_r.
  rewrite !calls_of_app.
  repeat match goal with
         | Ht : tagged _ ?l |- _ =>
             rewrite !(calls_of_tagged _ _ l Ht); clear Ht
         end.
  cbn [step_eqb app]. by rewrite ?app_nil_r.
Qed.

End Invariants.

(** ** The manager [Build] returns, and when it panics *)

Section Outcomes.

Context {F : Framework}.
Variable env : Env.

Lemma run_steps_two f g b h :
  run_steps [f; g] b h =
    match outcome (f b h) with
    | Done None =>
        let t := g (builder (f b h)) (h ++ calls (f b h)) in
        mkStep (outcome t) (builder t) (calls (f b h) ++ calls t)
    | _ => f b h
    end.
Proof.
  rewrite run_steps_cons.
  destruct (outcome (f b h)) as [[e|]|]; try done.
  cbv zeta.
  by destruct (run_steps_one g (builder (f b h)) (h ++ calls (f b h))) as (-> & -> & ->).
Qed.

(** A set manager is kept by the first two steps, which never panic; a
    manager that was not set is the one [newManager] returned. *)
Lemma first_steps r b h :
  let s2 := run_steps [config_step env; manager_step env] b h in
  outcome s2 <> Panic /\
  (forall m, mgr b = Some m -> mgr (builder s2) = Some m /\ calls s2 = []) /\
  (mgr b = None -> outcome s2 = Done None ->
     exists cfg, In (EvNewManager cfg (mgr (builder s2)) None) (calls s2)) /\
  mgr (builder (run_steps (build_steps env r) b h)) = mgr (builder s2).
Proof.
  cbv zeta. rewrite run_steps_two. split; [|split; [|split]].
  - unfold config_step, manager_step.
    destruct (config b); cbn.
    + by destruct (mgr b).
    + destruct (mgr b) eqn:Hm; cbn; [by rewrite Hm|].
      destruct (snd (getConfig env h)); cbn; [done|]. by rewrite Hm.
  - intros m Hm. unfold config_step, manager_step. rewrite Hm.
    destruct (config b); cbn; by rewrite Hm.
  - intros Hm. unfold config_step, manager_step. rewrite Hm.
    destruct (config b); cbn.
    + rewrite Hm. cbn. intros Ho. injection Ho as ->. eexists. by left.
    + destruct (snd (getConfig env h)); cbn; [done|].
      rewrite Hm. cbn. intros Ho. injection Ho as ->. eexists. right. by left.
  - rewrite <- run_steps_two. unfold build_steps.
    change [config_step env; manager_step env; controller_step env r; webhook_step env;
            watch_step env]
      with ([config_step env; manager_step env] ++
            [controller_step env r; webhook_step env; watch_step env]).
    by rewrite run_steps_preserves_after by frame.
Qed.

(** The last three steps: they need a manager, and a controller for the
    watches. *)
Lemma last_steps r b h :
  let t := run_steps [controller_step env r; webhook_step env; watch_step env] b h in
  (outcome t = Done None -> exists m, mgr b = Some m) /\
  (outcome t = Panic ->
     mgr b = None \/ exists name m, In (EvNewController name m r None None) (calls t)).
Proof.
  cbv zeta. rewrite run_steps_cons. unfold controller_step.
  destruct (mgr b) as [m|] eqn:Hm; [|split; [done|by left]].
  destruct (snd (getGvk env h _ _)); cbn [notNil outcome builder calls]; [done|].
  destruct (newController env _ _ _ _) as [c [e|]]; cbn [fst snd]; [done|].
  cbv zeta. rewrite run_steps_two. unfold webhook_step. cbn [mgr set_ctrl]. rewrite Hm.
  destruct (snd (GVKForObject env _ _ _)); cbn [notNil outcome builder calls]; [done|].
  unfold watch_step. cbn [ctrl set_ctrl].
  destruct c as [c|]; cbn [outcome builder calls].
  - split; [by eexists|done].
  - split; [done|]. intros _. right. eexists _, _. right. by left.
Qed.

Lemma Build_stages r b h :
  let s := run_steps (build_steps env r) b h in
  let s2 := run_steps [config_step env; manager_step env] b h in
  let t := run_steps [controller_step env r; webhook_step env; watch_step env]
             (builder s2) (h ++ calls s2) in
  match outcome s2 with
  | Done None => outcome s = outcome t /\ calls s = calls s2 ++ calls t
  | _ => s = s2
  end.
Proof.
  cbv zeta. unfold build_steps.
  change [config_step env; manager_step env; controller_step env r; webhook_step env;
          watch_step env]
    with ([config_step env; manager_step env] ++
          [controller_step env r; webhook_step env; watch_step env]).
  rewrite run_steps_app. cbv zeta.
  destruct (outcome (run_steps [config_step env; manager_step env] b h)) as [[e|]|];
    cbn [outcome calls]; auto.
Qed.

(** A [Build] whose steps all return nil has a manager in its builder. *)
Lemma Build_ok_manager r b h :
  let s := run_steps (build_steps env r) b h in
  outcome s = Done None ->
  exists m, mgr (builder s) = Some m /\
    (forall m0, mgr b = Some m0 -> m = m0) /\
    (mgr b = None -> exists cfg, In (EvNewManager cfg (Some m) None) (calls s)).
Proof.
  cbv zeta. intros Hok.
  destruct (first_steps r b h) as (Hnp & Hset & Hnew & Hmgr). cbv zeta in *.
  pose proof (Build_stages r b h) as Hst. cbv zeta in Hst.
  set (s2 := run_steps [config_step env; manager_step env] b h) in *.
  destruct (outcome s2) as [[e|]|] eqn:Ho2; [| |done].
  { rewrite Hst in Hok. congruence. }
  destruct Hst as [Ho Hc]. rewrite Ho in Hok.
  destruct (last_steps r (builder s2) (h ++ calls s2)) as [Hlast _].
  destruct (Hlast Hok) as [m Hm].
  exists m. rewrite Hmgr. split; [done|]. split.
  - intros m0 Hb. destruct (Hset m0 Hb) as [Hm0 _]. congruence.
  - intros Hb. destruct (Hnew Hb eq_refl) as [cfg Hin].
    exists cfg. rewrite Hc, <- Hm. apply in_or_app. by left.
Qed.

(** X6.  When [Build] succeeds, the manager it returns is not nil: it is
    the manager of the builder after [Build], which is the one that was set,
    or else the one [newManager] returned.  [Build] never returns a nil
    manager with a nil error. *)
Theorem Build_returns_manager (blder : loc) (b : Builder) (r : option Reconciler)
    (st : State) (m : option Manager) :
  heap st !! blder = Some b ->
  fst (Build env blder r st) = Done (m, None) ->
  let st' := snd (Build env blder r st) in
  exists mm,
    m = Some mm /\
    (exists b', heap st' !! blder = Some b' /\ mgr b' = Some mm) /\
    (forall m0, mgr b = Some m0 -> mm = m0) /\
    (mgr b = None -> exists cfg, In (EvNewManager cfg (Some mm) None) (new_calls st st')).
Proof.
  intros H Hok st'. destruct r as [r|]; [|discriminate Hok].
  subst st'. rewrite (Build_eq env blder b) in Hok |- * by exact H.
  cbv zeta in *. cbn [fst snd] in *. rewrite new_calls_upd.
  pose proof (Build_ok_manager (Some r) b (trace st)) as Hman. cbv zeta in Hman.
  remember (run_steps (build_steps env (Some r)) b (trace st)) as s eqn:Hs.
  unfold build_result in Hok.
  destruct (outcome s) as [[e|]|]; try discriminate Hok.
  injection Hok as <-.
  destruct (Hman eq_refl) as (mm & Hm & Hset & Hnew).
  exists mm. split; [exact Hm|]. split; [|split; assumption].
  eexists. split; [apply upd_lookup|exact Hm].
Qed.


(** A builder that holds a manager: [Build] discovers no config and
    constructs no manager. *)
Lemma Build_with_manager r b h mm :
  mgr b = Some mm ->
  let s := run_steps (build_steps env r) b h in
  calls_of StConfig (calls s) = [] /\
  calls_of StManager (calls s) = [] /\
  mgr (builder s) = Some mm /\
  config (builder s) = match config b with Some c => Some c | None => GetConfig mm end.
Proof.
  intros Hb. cbv zeta.
  destruct (Build_config env r b h) as [-> ->].
  destruct (Build_manager env r b h) as [-> ->].
  unfold config_step, manager_step. rewrite Hb.
  destruct (config b) eqn:Hcfg; cbn; rewrite ?Hb; cbn; rewrite ?Hb, ?Hcfg; by repeat split.
Qed.

(** What a successful [Build] leaves. *)
Lemma Build_success blder b r st m :
  heap st !! blder = Some b ->
  fst (Build env blder r st) = Done (m, None) ->
  exists mm b1 e1,
    m = Some mm /\ snd (Build env blder r st) = upd blder b1 e1 st /\ mgr b1 = Some mm.
Proof.
  intros H Hok. destruct r as [r|]; [|discriminate Hok].
  rewrite (Build_eq env blder b) in Hok |- * by exact H.
  cbv zeta in *. cbn [fst snd] in *.
  pose proof (Build_ok_manager (Some r) b (trace st)) as Hman. cbv zeta in Hman.
  remember (run_steps (build_steps env (Some r)) b (trace st)) as s eqn:Hs. clear Hs.
  unfold build_result in Hok.
  destruct (outcome s) as [[e|]|]; try discriminate Hok.
  injection Hok as <-.
  destruct (Hman eq_refl) as (mm & Hm & _ & _).
  exists mm, (builder s), (calls s). split; [exact Hm|]. split; [reflexivity|exact Hm].
Qed.

(** [Build] on a builder that holds a manager. *)
Lemma Build_on_manager blder b r st mm :
  heap st !! blder = Some b ->
  mgr b = Some mm ->
  let st' := snd (Build env blder r st) in
  calls_of StConfig (new_calls st st') = [] /\
  calls_of StManager (new_calls st st') = [] /\
  (exists b', heap st' !! blder = Some b' /\ mgr b' = Some mm /\
              (r <> None -> config b' =
                 match config b with Some c => Some c | None => GetConfig mm end)) /\
  (forall m2, fst (Build env blder r st) = Done (m2, None) -> m2 = Some mm).
Proof.
  intros H Hb st'. subst st'. destruct r as [r|].
  2:{ unfold new_calls. cbn. rewrite drop_all. split; [reflexivity|]. split; [reflexivity|].
      split; [|intros m2 Hok; discriminate Hok].
      exists b. split; [exact H|]. split; [exact Hb|]. intros Hr. by destruct Hr. }
  rewrite (Build_eq env blder b) by exact H. cbv zeta. cbn [fst snd].
  rewrite new_calls_upd.
  destruct (Build_with_manager (Some r) b (trace st) mm Hb) as (Hc & Hn & Hm & Hcfg).
  remember (run_steps (build_steps env (Some r)) b (trace st)) as s eqn:Hs. clear Hs.
  split; [exact Hc|]. split; [exact Hn|]. split.
  - eexists. split; [apply upd_lookup|]. split; [exact Hm|]. intros _. exact Hcfg.
  - intros m2 Hok. unfold build_result in Hok.
    destruct (outcome s) as [[e|]|]; try discriminate Hok.
    injection Hok as <-. exact Hm.
Qed.

(** X8.  After a [Build] that succeeded, a second [Build] on the same
    builder finds the manager of the first: it calls neither [getConfig] nor
    [newManager], and if it succeeds it returns the same manager. *)
Theorem Build_twice (blder : loc) (b : Builder) (r r' : option Reconciler) (st : State)
    (m : option Manager) :
  heap st !! blder = Some b ->
  fst (Build env blder r st) = Done (m, None) ->
  let st1 := snd (Build env blder r st) in
  let evs2 := new_calls st1 (snd (Build env blder r' st1)) in
  calls_of StConfig evs2 = [] /\
  calls_of StManager evs2 = [] /\
  forall m2, fst (Build env blder r' st1) = Done (m2, None) -> m2 = m.
Proof.
  intros H Hok st1 evs2.
  destruct (Build_success blder b r st m H Hok) as (mm & b1 & e1 & -> & E & Hm).
  subst evs2 st1. rewrite E. clear E Hok.
  destruct (Build_on_manager blder b1 r' (upd blder b1 e1 st) mm (upd_lookup _ _ _ _) Hm)
    as (Hc & Hn & _ & Hret).
  split; [exact Hc|]. split; [exact Hn|exact Hret].
Qed.

(** X9.  [ControllerManagedBy(m)] makes a new builder that holds the manager
    [m] and nothing else.  [Build] on it discovers no config and constructs
    no manager: the config is the manager's, and the manager returned on
    success is [m]. *)
Theorem ControllerManagedBy_Build (m : Manager) (r : Reconciler) (st st0 : State)
    (blder : loc) :
  ControllerManagedBy (Some m) st = (Done blder, st0) ->
  let st' := snd (Build env blder (Some r) st0) in
  let evs := new_calls st0 st' in
  heap st !! blder = None /\
  heap st0 = <[blder := mkBuilder None (Some m) [] [] [] None None]> (heap st) /\
  calls_of StConfig evs = [] /\
  calls_of StManager evs = [] /\
  (exists b', heap st' !! blder = Some b' /\ mgr b' = Some m /\ config b' = GetConfig m) /\
  (forall m', fst (Build env blder (Some r) st0) = Done (m', None) -> m' = Some m).
Proof.
  intros E st' evs.
  assert (heap st !! blder = None /\
          heap st0 = <[blder := mkBuilder None (Some m) [] [] [] None None]> (heap st))
    as [Hnew Hheap].
  { revert E. unfold ControllerManagedBy, SimpleController, WithManager, bind, ret, update.
    cbn. rewrite lookup_insert_eq. intros E. injection E as <- <-. cbn.
    split; [apply not_elem_of_dom, is_fresh|]. by rewrite insert_insert_eq. }
  split; [exact Hnew|]. split; [exact Hheap|].
  assert (heap st0 !! blder = Some (mkBuilder None (Some m) [] [] [] None None)) as H0.
  { rewrite Hheap. apply lookup_insert_eq. }
  destruct (Build_on_manager blder _ (Some r) st0 m H0 eq_refl)
    as (Hc & Hn & (b' & Hb' & Hm & Hcfg) & Hret).
  split; [exact Hc|]. split; [exact Hn|]. split; [|exact Hret].
  exists b'. split; [exact Hb'|]. split; [exact Hm|]. by apply Hcfg.
Qed.

End Outcomes.

(** ** The watches and the webhooks, call by call *)

Section Calls.

Context {F : Framework}.
Variable env : Env.

(** The [Watch] calls made are the first ones of the plan. *)
Lemma run_watches_prefix c prct plan hist :
  let evs := fst (run_watches env c prct plan hist) in
  flat_map watched evs =
    map (fun p => (c, fst p, snd p, prct)) (firstn (length evs) plan) /\
  length evs <= length plan /\
  (plan <> [] -> 1 <= length evs) /\
  (snd (run_watches env c prct plan hist) = None -> length evs = length plan).
Proof.
  cbv zeta. revert hist. induction plan as [|[s h] plan IH]; intros hist.
  - cbn. repeat split; [lia|done].
  - cbn [run_watches].
    destruct (Watch env hist c s h prct) as [e|]; cbn [notNil fst snd].
    + cbn. repeat split; [lia|lia|done].
    + destruct (IH (hist ++ [EvWatch c s h prct None])) as (E & Hle & _ & Hall).
      cbn [flat_map watched length firstn map app fst snd]. rewrite E.
      repeat split; [lia|lia|]. intros Hok. by rewrite Hall.
Qed.

(** X10.  [doWatch] asks its watches of the builder's controller in the
    order of its plan (the reconciled type, the owned types, the watch
    requests), each with the builder's event filters, and stops at the first
    refusal: the watches asked are the first ones of the plan, at least one
    and all of them when it returns nil.  Without a controller it panics
    before any call. *)
Theorem doWatch_prefix (blder : loc) (b : Builder) (st : State) :
  heap st !! blder = Some b ->
  let evs := new_calls st (snd (doWatch env blder st)) in
  let plan :=
    (SourceKind (apiType b), EnqueueRequestForObject)
    :: map (fun obj => (SourceKind obj, EnqueueRequestForOwner (apiType b) true))
           (managedObjects b)
    ++ map (fun w => (src w, eventhandler w)) (watchRequests b) in
  (ctrl b = None -> doWatch env blder st = (Panic, st)) /\
  (forall c, ctrl b = Some c ->
     flat_map watched evs =
       map (fun p => (c, fst p, snd p, predicates b)) (firstn (length evs) plan) /\
     1 <= length evs <= length plan /\
     (fst (doWatch env blder st) = Done None -> length evs = length plan) /\
     (forall e, fst (doWatch env blder st) = Done (Some e) ->
        exists pre ev, evs = pre ++ [ev] /\ ev_err ev = Some e)).
Proof.
  intros H evs plan.
  assert (plan = watch_plan b) as Hp by reflexivity. clearbody plan. subst plan evs.
  rewrite (doWatch_eq env blder b) by exact H. unfold step_at, watch_step.
  split.
  - intros Hc. rewrite Hc. cbn. by rewrite upd_id.
  - intros c Hc. rewrite Hc. cbv zeta. cbn [fst snd outcome builder calls].
    rewrite new_calls_upd.
    destruct (run_watches_prefix c (predicates b) (watch_plan b) (trace st))
      as (E & Hle & Hone & Hall).
    pose proof (run_watches_fail_fast env c (predicates b) (watch_plan b) (trace st)) as Hff.
    cbv zeta in E, Hle, Hone, Hall.
    remember (run_watches env c (predicates b) (watch_plan b) (trace st)) as rw eqn:Hrw.
    clear Hrw.
    split; [exact E|]. split; [split; [by apply Hone|exact Hle]|]. split.
    + intros Hok. apply Hall. by injection Hok.
    + intros e Hok. injection Hok as Hok. rewrite Hok in Hff.
      by apply fail_fast_error.
Qed.

(** The registrations of the webhook step, whatever the type implements
    and whatever the constructors answer. *)
Lemma webhook_step_registrations b h :
  let regs := registrations (calls (webhook_step env b h)) in
  length regs <= 2 /\
  List.NoDup (map (fun x => snd (fst x)) regs) /\
  (forall x y rest, regs = x :: y :: rest ->
     String.prefix "/mutate-" (snd (fst x)) = true /\
     String.prefix "/validate-" (snd (fst y)) = true) /\
  (asDefaulter (apiType b) = None ->
     forall srv path hook, In (srv, path, hook) regs ->
       String.prefix "/mutate-" path = false) /\
  (asValidator (apiType b) = None ->
     forall srv path hook, In (srv, path, hook) regs ->
       String.prefix "/validate-" path = false) /\
  (forall srv path hook, In (srv, path, hook) regs ->
     exists m, mgr b = Some m /\ srv = GetWebhookServer m) /\
  (exists gvk, forall srv path hook, In (srv, path, hook) regs ->
     path = ("/mutate-" ++ partialPath gvk)%string \/
     path = ("/validate-" ++ partialPath gvk)%string).
Proof.
  cbv zeta. unfold webhook_step.
  assert (forall x : String.string, ("/mutate-" ++ x)%string <> ("/validate-" ++ x)%string)
    as Hne by (intros x; discriminate).
  destruct (mgr b) as [m|].
  2:{ cbn. repeat split; try lia; try constructor; try done. by exists (mkGVK "a" "b" "c"). }
  destruct (GVKForObject env h (apiType b) (GetScheme m)) as [gvk [e|]];
    cbn [fst snd notNil calls].
  { cbn. repeat split; try lia; try constructor; try done. by exists gvk. }
  unfold mutating_calls, validating_calls.
  remember (partialPath gvk) as pp eqn:Hpp.
  destruct (asDefaulter (apiType b)) as [d|];
    [destruct (DefaultingWebhookFor env _ d) as [mwh|]|];
    (destruct (asValidator (apiType b)) as [v|];
      [destruct (ValidatingWebhookFor env _ v) as [vwh|]|]);
    cbn [app registrations flat_map length map fst snd];
    (split; [lia|]);
    (split; [repeat constructor; cbn [In]; intros Hin; destruct_or?; try done;
             exfalso; apply (Hne pp); congruence|]);
    (split; [intros x y rest Hxy; simplify_eq; cbn [fst snd];
             split; apply prefix_paths|]);
    (split; [intros Hd srv path hook Hin; cbn [In] in Hin; destruct_or?; simplify_eq;
             try done; apply prefix_paths|]);
    (split; [intros Hd srv path hook Hin; cbn [In] in Hin; destruct_or?; simplify_eq;
             try done; apply prefix_paths|]);
    (split; [intros srv path hook Hin; cbn [In] in Hin; destruct_or?; simplify_eq;
             try done; by exists m|]);
    exists gvk; intros srv path hook Hin; cbn [In] in Hin; destruct_or?; simplify_eq;
      try done; rewrite <- ?Hpp; auto.
Qed.

(** X11.  Whatever the reconciled type implements and whatever the webhook
    constructors answer, a [Build] registers at most two webhooks, at
    distinct paths: a "/mutate-" one only for a type that implements
    [admission.Defaulter], a "/validate-" one only for a type that
    implements [admission.Validator], the mutating one first, both on the
    webhook server of the manager the builder holds after [Build], and both
    paths with the suffix of one and the same GVK. *)
Theorem Build_registrations (blder : loc) (b : Builder) (r : option Reconciler)
    (st : State) :
  heap st !! blder = Some b ->
  let st' := snd (Build env blder r st) in
  let regs := registrations (new_calls st st') in
  length regs <= 2 /\
  List.NoDup (map (fun x => snd (fst x)) regs) /\
  (forall x y rest, regs = x :: y :: rest ->
     String.prefix "/mutate-" (snd (fst x)) = true /\
     String.prefix "/validate-" (snd (fst y)) = true) /\
  (asDefaulter (apiType b) = None ->
     forall srv path hook, In (srv, path, hook) regs ->
       String.prefix "/mutate-" path = false) /\
  (asValidator (apiType b) = None ->
     forall srv path hook, In (srv, path, hook) regs ->
       String.prefix "/validate-" path = false) /\
  (forall srv path hook, In (srv, path, hook) regs ->
     exists b' m, heap st' !! blder = Some b' /\ mgr b' = Some m /\
                  srv = GetWebhookServer m) /\
  (exists gvk, forall srv path hook, In (srv, path, hook) regs ->
     path = ("/mutate-" ++ partialPath gvk)%string \/
     path = ("/validate-" ++ partialPath gvk)%string).
Proof.
  intros H st' regs. subst regs st'. destruct r as [r|].
  2:{ unfold new_calls. cbn. rewrite drop_all. cbn.
      repeat split; try lia; try constructor; try done. by exists (mkGVK "a" "b" "c"). }
  rewrite (Build_eq env blder b) by exact H. cbv zeta. cbn [snd].
  rewrite new_calls_upd.
  destruct (Build_webhook env (Some r) b (trace st)) as [Ha E]. cbv zeta in Ha, E.
  assert (mgr (builder (run_steps (build_steps env (Some r)) b (trace st))) =
          mgr (builder (run_steps [config_step env; manager_step env;
                                   controller_step env (Some r)] b (trace st)))) as Hm.
  { unfold build_steps.
    change [config_step env; manager_step env; controller_step env (Some r);
            webhook_step env; watch_step env]
      with ([config_step env; manager_step env; controller_step env (Some r)] ++
            [webhook_step env; watch_step env]).
    rewrite run_steps_preserves_after by frame. reflexivity. }
  remember (run_steps (build_steps env (Some r)) b (trace st)) as s eqn:Hs. clear Hs.
  remember (run_steps [config_step env; manager_step env; controller_step env (Some r)]
              b (trace st)) as sp eqn:Hsp. clear Hsp.
  rewrite <- (registrations_calls_of (calls s)), E. clear E.
  pose proof (webhook_step_registrations (builder sp) (trace st ++ calls sp)) as W.
  cbv zeta in W. rewrite Ha in W.
  destruct (outcome sp) as [[e|]|].
  1,3: cbn; repeat split; try lia; try constructor; try done;
       by exists (mkGVK "a" "b" "c").
  destruct W as (W1 & W2 & W3 & W4 & W5 & W6 & W7).
  split; [exact W1|]. split; [exact W2|]. split; [exact W3|]. split; [exact W4|].
  split; [exact W5|]. split; [|exact W7].
  intros srv path hook Hin. destruct (W6 srv path hook Hin) as (m & Hmm & ->).
  exists (builder s), m. split; [apply upd_lookup|]. split; [|reflexivity].
  rewrite Hm. exact Hmm.
Qed.

(** The controller of the builder after the steps of [Build]. *)
Lemma Build_ctrl r b h :
  let s := run_steps (build_steps env r) b h in
  let sp := run_steps [config_step env; manager_step env] b h in
  let s3 := controller_step env r (builder sp) (h ++ calls sp) in
  ctrl (builder sp) = ctrl b /\
  ctrl (builder s) =
    match outcome sp with Done None => ctrl (builder s3) | _ => ctrl b end.
Proof.
  cbv zeta.
  assert (ctrl (builder (run_steps [config_step env; manager_step env] b h)) = ctrl b)
    as Hc by (apply (run_steps_preserves ctrl); frame).
  split; [exact Hc|]. unfold build_steps.
  change [config_step env; manager_step env; controller_step env r; webhook_step env;
          watch_step env]
    with ([config_step env; manager_step env; controller_step env r] ++
          [webhook_step env; watch_step env]).
  rewrite run_steps_preserves_after by frame.
  change [config_step env; manager_step env; controller_step env r]
    with ([config_step env; manager_step env] ++ [controller_step env r]).
  rewrite run_steps_app. cbv zeta.
  remember (run_steps [config_step env; manager_step env] b h) as sp eqn:Hsp. clear Hsp.
  destruct (outcome sp) as [[e|]|]; try exact Hc.
  cbn [builder].
  by destruct (run_steps_one (controller_step env r) (builder sp) (h ++ calls sp))
    as (_ & -> & _).
Qed.

(** X12.  [Build] keeps in its builder what the constructors answered, also
    when it fails: whatever [getConfig], [newManager] and [newController]
    returned beside their error is the config, the manager and the
    controller of the builder afterwards, and nothing is rolled back.  A
    [Build] that did not come to construct a controller leaves the
    controller as it was. *)
Theorem Build_keeps_answers (blder : loc) (b : Builder) (r : option Reconciler)
    (st : State) :
  heap st !! blder = Some b ->
  let st' := snd (Build env blder r st) in
  let evs := new_calls st st' in
  exists b',
    heap st' !! blder = Some b' /\
    (forall cfg err, In (EvGetConfig cfg err) evs -> config b' = cfg) /\
    (forall cfg m err, In (EvNewManager cfg m err) evs -> mgr b' = m /\ config b' = cfg) /\
    (forall name m r' c err, In (EvNewController name m r' c err) evs ->
       ctrl b' = c /\ mgr b' = m /\ r' = r) /\
    ((forall name m r' c err, ~ In (EvNewController name m r' c err) evs) ->
       ctrl b' = ctrl b).
Proof.
  intros H st' evs. subst evs st'. destruct r as [r|].
  2:{ exists b. unfold new_calls. cbn. rewrite drop_all. by repeat split. }
  rewrite (Build_eq env blder b) by exact H. cbv zeta. cbn [snd].
  rewrite new_calls_upd.
  destruct (Build_config env (Some r) b (trace st)) as [Ec Hc].
  destruct (Build_manager env (Some r) b (trace st)) as [Em Hm].
  destruct (Build_controller env (Some r) b (trace st)) as [_ Ek].
  destruct (Build_ctrl (Some r) b (trace st)) as [Hk0 Hk].
  cbv zeta in *.
  assert (mgr (builder (run_steps (build_steps env (Some r)) b (trace st))) =
          mgr (builder (run_steps [config_step env; manager_step env] b (trace st)))) as Hm2.
  { unfold build_steps.
    change [config_step env; manager_step env; controller_step env (Some r);
            webhook_step env; watch_step env]
      with ([config_step env; manager_step env] ++
            [controller_step env (Some r); webhook_step env; watch_step env]).
    rewrite run_steps_preserves_after by frame. reflexivity. }
  remember (run_steps (build_steps env (Some r)) b (trace st)) as s eqn:Hs. clear Hs.
  remember (run_steps [config_step env; manager_step env] b (trace st)) as sp eqn:Hsp.
  clear Hsp.
  exists (builder s). split; [apply upd_lookup|]. split; [|split; [|split]].
  - intros cfg err Hin. apply (In_calls_of StConfig) in Hin; [|reflexivity].
    rewrite Ec in Hin. rewrite Hc. clear -Hin. unfold config_step in *.
    destruct (notNil (config b)); [destruct Hin|].
    destruct (mgr b); [destruct Hin|].
    cbn [calls builder] in *. destruct Hin as [Hin|[]]. by injection Hin as <- _.
  - intros cfg m err Hin. apply (In_calls_of StManager) in Hin; [|reflexivity].
    rewrite Em in Hin. rewrite Hm, Hc. clear -Hin.
    destruct (outcome (config_step env b (trace st))) as [[e|]|]; try destruct Hin.
    unfold manager_step in *.
    destruct (notNil (mgr (builder (config_step env b (trace st))))); [destruct Hin|].
    cbn [calls builder] in *. destruct Hin as [Hin|[]]. by injection Hin as <- <- _.
  - intros name m r' c err Hin. apply (In_calls_of StController) in Hin; [|reflexivity].
    rewrite Ek in Hin. rewrite Hk, Hm2. clear -Hin.
    destruct (outcome sp) as [[e|]|]; try destruct Hin.
    unfold controller_step in *.
    destruct (mgr (builder sp)) as [m0|]; [|destruct Hin].
    destruct (notNil (snd (getGvk env _ _ _))); cbn [calls builder] in *.
    { destruct Hin as [Hin|[]]. discriminate Hin. }
    destruct Hin as [Hin|[Hin|[]]]; [discriminate Hin|].
    by injection Hin as _ <- <- <- _.
  - intros Hno. rewrite Hk.
    destruct (outcome sp) as [[e|]|] eqn:Ho; try reflexivity.
    rewrite <- Hk0.
    assert (forall ev, In ev (calls (controller_step env (Some r) (builder sp)
                                       (trace st ++ calls sp))) -> In ev (calls s)) as Hsub.
    { intros ev Hin. rewrite <- Ek in Hin. by apply In_calls_of_inv in Hin. }
    clear -Hno Hsub. unfold controller_step in *.
    destruct (mgr (builder sp)) as [m0|]; [|reflexivity].
    destruct (notNil (snd (getGvk env _ _ _))); cbn [calls builder] in *; [reflexivity|].
    exfalso. eapply Hno. apply Hsub. right. left. reflexivity.
Qed.

End Calls.

(** ** More scenarios *)

Section MoreScenarios.

Import Demo.
#[local] Existing Instance framework.

(** X2 at an address that holds no builder. *)
Lemma nil_builder_panics_witness :
  Owns 2%positive (Some "Pod") stateFoo = (Panic, stateFoo) /\
  Build env 2%positive (Some "r") stateFoo = (Panic, stateFoo).
Proof.
  destruct (nil_builder_panics env 2%positive "r" stateFoo)
    as (_ & _ & Ho & _ & _ & _ & _ & Hb & _).
  - vm_compute. reflexivity.
  - split; [apply Ho|exact Hb].
Defined.

(** X3 on the builder of [chainFoo], continued by [moreCalls]. *)
Lemma chain_fields_witness :
  exists b',
    chain 1%positive
      moreCalls stateFoo =
      (Done 1%positive, mkState (<[1%positive := b']> (heap stateFoo)) (trace stateFoo)) /\
    apiType b' = Some "Widget" /\
    mgr b' = Some "mgr" /\
    managedObjects b' = [Some "Pod"; Some "Pod"; Some "Secret"] /\
    predicates b' = ["generation changed"; "generation changed"].
Proof.
  destruct (chain_fields 1%positive
              moreCalls builderFoo stateFoo)
    as (b' & E & Ha & Hm & _ & Ho & _ & Hp & _).
  - vm_compute. reflexivity.
  - exists b'. split; [exact E|]. split; [exact Ha|]. split; [exact Hm|].
    split; [exact Ho|exact Hp].
Defined.

(** X4 on a [Build] that fails at the watch of a Secret. *)
Lemma Build_frame_witness :
  exists b',
    heap (snd (Build env 1%positive (Some "r") stateSecret)) =
      <[1%positive := b']> (heap stateSecret) /\
    apiType b' = Some "Foo" /\
    managedObjects b' = [Some "Secret"; Some "Pod"].
Proof.
  destruct (Build_frame env 1%positive builderSecret (Some "r") stateSecret)
    as (b' & Hh & _ & Ha & _ & Ho & _).
  - vm_compute. reflexivity.
  - exists b'. split; [exact Hh|]. split; [exact Ha|exact Ho].
Defined.

(** X5 on [SimpleController().For(Widget)], where every step calls. *)
Lemma Build_call_order_witness :
  new_calls stateWidget (snd (Build env 1%positive (Some "r") stateWidget)) =
    calls_of StConfig
      (new_calls stateWidget (snd (Build env 1%positive (Some "r") stateWidget))) ++
    calls_of StManager
      (new_calls stateWidget (snd (Build env 1%positive (Some "r") stateWidget))) ++
    calls_of StController
      (new_calls stateWidget (snd (Build env 1%positive (Some "r") stateWidget))) ++
    calls_of StWebhook
      (new_calls stateWidget (snd (Build env 1%positive (Some "r") stateWidget))) ++
    calls_of StWatch
      (new_calls stateWidget (snd (Build env 1%positive (Some "r") stateWidget))).
Proof.
  apply (Build_call_order env 1%positive builderWidget (Some "r") stateWidget).
  vm_compute. reflexivity.
Defined.

(** X6 on the same builder: the manager returned is the constructed one. *)
Lemma Build_returns_manager_witness :
  exists cfg,
    In (EvNewManager cfg (Some "new manager") None)
       (new_calls stateWidget (snd (Build env 1%positive (Some "r") stateWidget))).
Proof.
  destruct (Build_returns_manager env 1%positive builderWidget (Some "r") stateWidget
              (Some "new manager")) as (mm & Hm & _ & _ & Hnew).
  - vm_compute. reflexivity.
  - vm_compute. reflexivity.
  - injection Hm as <-. apply Hnew. reflexivity.
Defined.


(** X8 on [SimpleController().For(Widget)], built twice. *)
Lemma Build_twice_witness :
  calls_of StConfig
    (new_calls (snd (Build env 1%positive (Some "r") stateWidget))
       (snd (Build env 1%positive (Some "r2")
               (snd (Build env 1%positive (Some "r") stateWidget))))) = [] /\
  calls_of StManager
    (new_calls (snd (Build env 1%positive (Some "r") stateWidget))
       (snd (Build env 1%positive (Some "r2")
               (snd (Build env 1%positive (Some "r") stateWidget))))) = [].
Proof.
  destruct (Build_twice env 1%positive builderWidget (Some "r") (Some "r2") stateWidget
              (Some "new manager")) as (Hc & Hn & _).
  - vm_compute. reflexivity.
  - vm_compute. reflexivity.
  - split; [exact Hc|exact Hn].
Defined.

(** X9 on [ControllerManagedBy("mgr")] in the empty heap. *)
Lemma ControllerManagedBy_Build_witness :
  exists b',
    heap (snd (Build env 1%positive (Some "r")
                 (snd (ControllerManagedBy (Some "mgr") start)))) !! 1%positive = Some b' /\
    mgr b' = Some "mgr" /\ config b' = Some "config of mgr".
Proof.
  destruct (ControllerManagedBy_Build env "mgr" "r" start
              (snd (ControllerManagedBy (F := framework) (Some "mgr") start)) 1%positive)
    as (_ & _ & _ & _ & Hb & _).
  - vm_compute. reflexivity.
  - exact Hb.
Defined.

(** X10 on the builder of [chainFoo] once its controller is made: three
    watches. *)
Lemma doWatch_prefix_witness :
  length (new_calls (beforeWebhook env) (snd (doWatch env 1%positive (beforeWebhook env))))
    = 3.
Proof.
  destruct (doWatch_prefix env 1%positive (builderResolved "controller foo-application")
              (beforeWebhook env)) as [_ H].
  - vm_compute. reflexivity.
  - destruct (H "controller foo-application" eq_refl) as (_ & _ & Hall & _).
    apply Hall. vm_compute. reflexivity.
Defined.

(** X11 on the builder of [chainFoo]: two registrations on "server of mgr". *)
Lemma Build_registrations_witness :
  List.NoDup
    (map (fun x => snd (fst x))
       (registrations
          (new_calls stateFoo (snd (Build env 1%positive (Some "r") stateFoo))))) /\
  exists b' m,
    heap (snd (Build env 1%positive (Some "r") stateFoo)) !! 1%positive = Some b' /\
    mgr b' = Some m /\ "server of mgr"%string = GetWebhookServer m.
Proof.
  destruct (Build_registrations env 1%positive builderFoo (Some "r") stateFoo)
    as (_ & Hnd & _ & _ & _ & Hsrv & _).
  - vm_compute. reflexivity.
  - split; [exact Hnd|].
    apply (Hsrv "server of mgr"%string "/mutate-apps-example-com-v1-foo"%string
                "defaulting webhook for Foo"%string).
    vm_compute. auto.
Defined.

(** X12 with a [newController] that answers a controller and an error. *)
Lemma Build_keeps_answers_witness :
  fst (Build envFailedController 1%positive (Some "r") stateFoo) =
    Done (None, Some (External "the name is taken")) /\
  exists b',
    heap (snd (Build envFailedController 1%positive (Some "r") stateFoo)) !! 1%positive
      = Some b' /\
    ctrl b' = Some "controller not started".
Proof.
  split; [vm_compute; reflexivity|].
  destruct (Build_keeps_answers envFailedController 1%positive builderFoo (Some "r") stateFoo)
    as (b' & Hb & _ & _ & Hc & _).
  - vm_compute. reflexivity.
  - exists b'. split; [exact Hb|].
    assert (In (EvNewController (F := framework) "foo-application" (Some "mgr") (Some "r")
                  (Some "controller not started") (Some (External "the name is taken")))
               (new_calls stateFoo
                  (snd (Build envFailedController 1%positive (Some "r") stateFoo)))) as Hin.
    { vm_compute. auto. }
    exact (proj1 (Hc _ _ _ _ _ Hin)).
Defined.

End MoreScenarios.
